(** * NEXUS career-recommendation backend: model and verified properties

    A shallow embedding of [src/main.py] and [src/skill_roadmaps.py].

    - Request bodies are Python dicts decoded from JSON.  A key of such a dict
      is modelled by a [field]: the key can be absent, hold JSON [null]
      (Python [None]) or hold a value of the expected type.
    - Python exceptions are modelled by the [Raise] outcome of [result].
    - The two module-level tables ([careers], [SKILL_ROADMAPS]) live in a
      [World] that every handler threads through the monad [M].
    - [set(...)] is a [gset string]; [list(set)] is [elements], whose order is
      fixed but unspecified, like the iteration order of a Python set.  The
      proofs only use that [elements] enumerates the set without repetition. *)

From Stdlib Require Import Ascii String.
From stdpp Require Import gmap strings list fin_maps sorting.

Open Scope string_scope.
Open Scope list_scope.
Open Scope nat_scope.

(** ** Python runtime values *)

Inductive exn : Type :=
  | KeyError
  | TypeError
  | AttributeError.

Inductive result (A : Type) : Type :=
  | Ok (a : A)
  | Raise (e : exn).
Arguments Ok {A} a.
Arguments Raise {A} e.

(** One key of a request dict. *)
Inductive field (A : Type) : Type :=
  | Absent
  | Null
  | Present (a : A).
Arguments Absent {A}.
Arguments Null {A}.
Arguments Present {A} a.

(** ** The module-level tables *)

(** One element of [careers.json].  The keys read with [career["..."]] are
    plain fields, the keys read with [career.get("...", default)] are
    optional. *)
Record CareerRecord : Type := {
  career : string;
  interests : list string;
  required_skills : list string;
  difficulty : string;
  branch : option (list string);
  tools : option (list string);
  certifications : option (list string);
  exams : option (list string);
  future_trends : option (list string);
  startup_guidance : option string
}.

(** One value of [SKILL_ROADMAPS]. *)
Record SkillRoadmapEntry : Type := {
  beginner : list string;
  intermediate : list string;
  advanced : list string
}.

Record World : Type := {
  careers : list CareerRecord;
  SKILL_ROADMAPS : gmap string SkillRoadmapEntry
}.

(** ** The handler monad: shared tables plus exceptions *)

Definition M (A : Type) : Type := World -> result A * World.

Definition ret {A} (a : A) : M A := fun w => (Ok a, w).

Definition raise {A} (e : exn) : M A := fun w => (Raise e, w).

Definition bind {A B} (m : M A) (k : A -> M B) : M B :=
  fun w =>
    match m w with
    | (Ok a, w') => k a w'
    | (Raise e, w') => (Raise e, w')
    end.

Notation "x <- m ;; k" := (bind m (fun x => k))
  (at level 100, m at next level, right associativity).

(** Reading the globals [careers] and [SKILL_ROADMAPS]. *)
Definition read_careers : M (list CareerRecord) := fun w => (Ok (careers w), w).

Definition read_SKILL_ROADMAPS : M (gmap string SkillRoadmapEntry) :=
  fun w => (Ok (SKILL_ROADMAPS w), w).

(** A computation that never writes the shared tables. *)
Definition readonly {A} (m : M A) : Prop := forall w, (m w).2 = w.

(** ** Dict and set primitives *)

(** [d["k"]]: a missing key raises, [null] is read as [None]. *)
Definition subscript {A} (f : field A) : M (option A) :=
  match f with
  | Absent => raise KeyError
  | Null => ret None
  | Present a => ret (Some a)
  end.

(** [d.get("k")]. *)
Definition get {A} (f : field A) : option A :=
  match f with
  | Present a => Some a
  | _ => None
  end.

(** [d.get("k", default)]: the default replaces a missing key only. *)
Definition get_default {A} (f : field A) (default : A) : option A :=
  match f with
  | Absent => Some default
  | Null => None
  | Present a => Some a
  end.

(** [set(x)] for a list of strings; [set(None)] raises. *)
Definition set_of (x : option (list string)) : M (gset string) :=
  match x with
  | Some l => ret (list_to_set l)
  | None => raise TypeError
  end.

(** [dflt if o is None else o], the reading of [career.get(k, [])]. *)
Definition or_default {A} (o : option A) (default : A) : A :=
  match o with
  | Some a => a
  | None => default
  end.

(** ** Recommendations *)

Record Recommendation : Type := {
  r_career : string;
  interest_match_score : nat;
  missing_skills : list string;
  r_difficulty : string;
  r_branch : list string;
  r_required_skills : list string;
  r_tools : list string;
  r_certifications : list string;
  r_exams : list string;
  r_future_trends : list string;
  (* [Absent]: the key is not emitted (quiz mode) *)
  r_startup_guidance : field string
}.

(** [list.sort(key=..., reverse=True)]: a stable sort, the larger keys first;
    elements with equal keys keep their order. *)
Fixpoint insert_desc {A} (key : A -> nat) (x : A) (l : list A) : list A :=
  match l with
  | [] => [x]
  | y :: l' => if (key y <=? key x)%nat then x :: l else y :: insert_desc key x l'
  end.

Definition sort_desc {A} (key : A -> nat) (l : list A) : list A :=
  foldr (insert_desc key) [] l.

Definition opt_to_field {A} (o : option A) : field A :=
  match o with
  | Some a => Present a
  | None => Null
  end.

(** *** POST /recommend-career *)

Record Student : Type := {
  s_name : field string;
  s_interests : field (list string);
  s_current_skills : field (list string);
  s_target_career : field string
}.

Record RecommendResponse : Type := {
  student : option string;
  recommended_careers : list Recommendation
}.

(** The body of [for career in careers] in [recommend_career]. *)
Fixpoint recommend_scan (st : Student) (cs : list CareerRecord)
    (recommendations : list Recommendation) : M (list Recommendation) :=
  match cs with
  | [] => ret recommendations
  | c :: cs' =>
      si <- subscript (s_interests st) ;;
      si <- set_of si ;;
      let interest_match := size (si ∩ list_to_set (interests c)) in
      if (0 <? interest_match)%nat then
        sk <- subscript (s_current_skills st) ;;
        sk <- set_of sk ;;
        let missing := elements (list_to_set (required_skills c) ∖ sk) in
        recommend_scan st cs'
          (recommendations ++
           [{| r_career := career c;
               interest_match_score := interest_match;
               missing_skills := missing;
               r_difficulty := difficulty c;
               r_branch := or_default (branch c) [];
               r_required_skills := required_skills c;
               r_tools := or_default (tools c) [];
               r_certifications := or_default (certifications c) [];
               r_exams := or_default (exams c) [];
               r_future_trends := or_default (future_trends c) [];
               r_startup_guidance := opt_to_field (startup_guidance c) |}])
      else recommend_scan st cs' recommendations
  end.

Definition recommend_career (st : Student) : M RecommendResponse :=
  cs <- read_careers ;;
  recommendations <- recommend_scan st cs [] ;;
  let recommendations := sort_desc interest_match_score recommendations in
  name <- subscript (s_name st) ;;
  ret {| student := name; recommended_careers := take 3 recommendations |}.

(** *** POST /quiz-recommend-career *)

Record QuizData : Type := {
  q_domain : field string;
  q_current_skills : field (list string)
}.

Record QuizResponse : Type := {
  qr_domain : option string;
  domain_name : string;
  qr_recommended_careers : list Recommendation
}.

(** [dict.get(key, default)] on a dict with string keys; the key looked up may
    be [None], which is no key of the dict. *)
Definition dict_get {V} (d : gmap string V) (key : option string) (default : V) : V :=
  match key with
  | Some k => or_default (d !! k) default
  | None => default
  end.

Definition technical_interests : list string :=
  [ "Programming"; "AI"; "Technology"; "Data"; "Cloud"; "Security";
    "Automation"; "Robotics"; "IoT"; "Embedded Systems"; "Software";
    "Web Development"; "Machine Learning"; "Computer Vision";
    "Networking"; "Blockchain"; "Quantum Computing" ].

Definition domain_interests : gmap string (list string) :=
  list_to_map
    [ ("T", technical_interests);
      ("C", [ "Design"; "Media"; "Animation"; "Gaming"; "Creative";
              "Art"; "Visual"; "UX"; "UI"; "Graphics"; "Multimedia";
              "Video"; "Audio"; "Photography"; "Content Creation" ]);
      ("B", [ "Management"; "Business"; "Sales"; "Marketing"; "Finance";
              "Entrepreneurship"; "Product"; "Strategy"; "Operations";
              "Consulting"; "Project Management"; "Leadership"; "Planning" ]);
      ("S", [ "Education"; "Healthcare"; "Community"; "Counseling"; "Social";
              "Teaching"; "Training"; "Wellness"; "Human Services";
              "Non-profit"; "Public Health"; "Clinical"; "Rehabilitation" ]);
      ("R", [ "Research"; "Science"; "Analysis"; "Investigation";
              "Data Analysis"; "Statistics"; "Academic"; "Theoretical";
              "Experimental"; "Scientific"; "Genomics"; "Physics" ]) ].

Definition domain_names : gmap string string :=
  list_to_map
    [ ("T", "Technical"); ("C", "Creative"); ("B", "Business");
      ("S", "Social"); ("R", "Research") ].

(** The body of [for career in careers] in [quiz_recommend_career]. *)
Fixpoint quiz_scan (data : QuizData) (relevant_interests : list string)
    (cs : list CareerRecord) (recommendations : list Recommendation)
    : M (list Recommendation) :=
  match cs with
  | [] => ret recommendations
  | c :: cs' =>
      let interest_match :=
        size (list_to_set (interests c) ∩ list_to_set relevant_interests
              : gset string) in
      if (0 <? interest_match)%nat then
        sk <- set_of (get_default (q_current_skills data) []) ;;
        let missing := elements (list_to_set (required_skills c) ∖ sk) in
        quiz_scan data relevant_interests cs'
          (recommendations ++
           [{| r_career := career c;
               interest_match_score := interest_match;
               missing_skills := missing;
               r_difficulty := difficulty c;
               r_branch := or_default (branch c) [];
               r_required_skills := required_skills c;
               r_tools := or_default (tools c) [];
               r_certifications := or_default (certifications c) [];
               r_exams := or_default (exams c) [];
               r_future_trends := or_default (future_trends c) [];
               r_startup_guidance := Absent |}])
      else quiz_scan data relevant_interests cs' recommendations
  end.

Definition quiz_recommend_career (data : QuizData) : M QuizResponse :=
  let domain := get_default (q_domain data) "" in
  (* [domain_interests["T"]] is [technical_interests] *)
  let relevant_interests := dict_get domain_interests domain technical_interests in
  cs <- read_careers ;;
  recommendations <- quiz_scan data relevant_interests cs [] ;;
  let recommendations := sort_desc interest_match_score recommendations in
  ret {| qr_domain := domain;
         domain_name := dict_get domain_names domain "General";
         qr_recommended_careers := take 5 recommendations |}.

(** *** POST /skill-gap and POST /learning-roadmap *)

(** The values stored in the dicts these two handlers return. *)
Inductive value : Type :=
  | VNone
  | VStr (s : string)
  | VList (l : list string)
  | VRoadmap (m : gmap string SkillRoadmapEntry).

Definition opt_value (o : option string) : value :=
  match o with
  | Some s => VStr s
  | None => VNone
  end.

(** The body of [for career in careers] in [skill_gap]; [result] is the dict
    the loop keeps writing into. *)
Fixpoint skill_gap_scan (st : Student) (cs : list CareerRecord)
    (result : gmap string value) : M (gmap string value) :=
  match cs with
  | [] => ret result
  | c :: cs' =>
      if decide (Some (career c) = get (s_target_career st)) then
        let result := <["career" := VStr (career c)]> result in
        sk <- subscript (s_current_skills st) ;;
        sk <- set_of sk ;;
        let result :=
          <["missing_skills" :=
              VList (elements (list_to_set (required_skills c) ∖ sk))]> result in
        skill_gap_scan st cs' result
      else skill_gap_scan st cs' result
  end.

Definition skill_gap (st : Student) : M (gmap string value) :=
  cs <- read_careers ;;
  skill_gap_scan st cs ∅.

(** The entry written for a skill that [SKILL_ROADMAPS] does not know. *)
Definition generic_roadmap (skill : string) : SkillRoadmapEntry :=
  {| beginner := ["Learn basics of " +:+ skill];
     intermediate := ["Practice " +:+ skill];
     advanced := ["Build projects using " +:+ skill] |}.

(** [for skill in missing_skills] in [learning_roadmap]. *)
Fixpoint build_roadmap (skills : list string)
    (roadmap : gmap string SkillRoadmapEntry) : M (gmap string SkillRoadmapEntry) :=
  match skills with
  | [] => ret roadmap
  | skill :: rest =>
      table <- read_SKILL_ROADMAPS ;;
      match table !! skill with
      | Some entry => build_roadmap rest (<[skill := entry]> roadmap)
      | None => build_roadmap rest (<[skill := generic_roadmap skill]> roadmap)
      end
  end.

Definition career_not_found : gmap string value :=
  {[ "error" := VStr "Career not found" ]}.

(** [for career in careers] in [learning_roadmap]: the first record with the
    target name returns from inside the loop. *)
Fixpoint roadmap_scan (target_career : option string)
    (current_skills : option (list string)) (cs : list CareerRecord)
    : M (gmap string value) :=
  match cs with
  | [] => ret career_not_found
  | c :: cs' =>
      if decide (Some (career c) = target_career) then
        sk <- set_of current_skills ;;
        let missing := elements (list_to_set (required_skills c) ∖ sk) in
        roadmap <- build_roadmap missing ∅ ;;
        ret (<["learning_roadmap" := VRoadmap roadmap]>
               (<["missing_skills" := VList missing]>
                  {[ "career" := opt_value target_career ]}))
      else roadmap_scan target_career current_skills cs'
  end.

Definition learning_roadmap (st : Student) : M (gmap string value) :=
  let target_career := get (s_target_career st) in
  let current_skills := get_default (s_current_skills st) [] in
  cs <- read_careers ;;
  roadmap_scan target_career current_skills cs.

(** The table of [skill_roadmaps.py], the value of [SKILL_ROADMAPS] at
    start-up. *)
Definition SKILL_ROADMAPS_loaded : gmap string SkillRoadmapEntry :=
  list_to_map
    [ ("Python",
       {| beginner := [ "Syntax, variables, data types";
                        "Loops and conditionals";
                        "Functions" ];
          intermediate := [ "Object-Oriented Programming";
                            "Working with files";
                            "Using libraries like NumPy, Pandas" ];
          advanced := [ "Build real-world projects";
                        "Performance optimization";
                        "Interview-level problem solving" ] |});
      ("Data Structures",
       {| beginner := [ "Arrays and strings"; "Basic recursion" ];
          intermediate := [ "Linked lists, stacks, queues"; "Trees and hash maps" ];
          advanced := [ "Graphs"; "Competitive programming problems" ] |});
      ("Algorithms",
       {| beginner := [ "Sorting basics"; "Searching techniques" ];
          intermediate := [ "Greedy algorithms"; "Divide and conquer" ];
          advanced := [ "Dynamic programming"; "Advanced graph algorithms" ] |});
      ("SQL",
       {| beginner := [ "SELECT, INSERT, UPDATE"; "WHERE clause" ];
          intermediate := [ "JOINs"; "Subqueries" ];
          advanced := [ "Query optimization"; "Indexing" ] |});
      ("Machine Learning",
       {| beginner := [ "What is ML"; "Supervised vs Unsupervised learning" ];
          intermediate := [ "Regression and classification"; "Model evaluation" ];
          advanced := [ "End-to-end ML projects"; "Model deployment" ] |});
      ("Deep Learning",
       {| beginner := [ "Neural networks basics"; "Activation functions" ];
          intermediate := [ "CNNs and RNNs"; "Training models" ];
          advanced := [ "Transformers"; "Research papers" ] |});
      ("Networking",
       {| beginner := [ "OSI model"; "IP addressing" ];
          intermediate := [ "TCP/IP"; "Routing and switching" ];
          advanced := [ "Network security"; "Enterprise networking" ] |}) ].

(** ** POST /career-chat *)

(** *** Strings *)

(** [str.lower()], on the UTF-8 bytes of the string: the letters [A]-[Z] are
    lowered, every other byte is kept. *)
Definition lower_ascii (c : ascii) : ascii :=
  let n := nat_of_ascii c in
  if ((65 <=? n) && (n <=? 90))%nat then ascii_of_nat (n + 32) else c.

Fixpoint lower (s : string) : string :=
  match s with
  | EmptyString => EmptyString
  | String c s' => String (lower_ascii c) (lower s')
  end.

(** [sub in s] on strings: [sub] occurs in [s] as a contiguous substring. *)
Fixpoint str_in (sub s : string) : bool :=
  String.prefix sub s ||
  match s with
  | EmptyString => false
  | String _ s' => str_in sub s'
  end.

(** [str(x)], as an f-string formats a value that is a string or [None]. *)
Definition str (x : option string) : string :=
  match x with
  | Some s => s
  | None => "None"
  end.

(** Truth value of a string-or-[None] and of a list-or-[None]. *)
Definition truthy_str (x : option string) : bool :=
  match x with
  | Some (String _ _) => true
  | _ => false
  end.

Definition truthy_list {A} (x : option (list A)) : bool :=
  match x with
  | Some (_ :: _) => true
  | _ => false
  end.

(** [x.lower()] where [x] may be [None], which has no such method. *)
Definition method_lower (x : option string) : M string :=
  match x with
  | Some s => ret (lower s)
  | None => raise AttributeError
  end.

Definition nl : string := String (ascii_of_nat 10) EmptyString.

(** ["\n".join([f"<bullet> {skill}" for skill in l])]. *)
Definition bullets (l : list string) : string :=
  String.concat nl (map (fun skill => "‚Ä¢ " +:+ skill) l).

(** *** The tables of [get_rule_based_response] *)

Record Guidance : Type := {
  description : string;
  skills : list string;
  career_path : string;
  salary_range : string;
  growth_tips : string
}.

(** Both dicts are iterated with [.items()], in the order they are written. *)
Definition career_guidance : list (string * Guidance) :=
[
  ("software engineer",
   {| description := "Software Engineers design, develop, and maintain software systems and applications.";
      skills := ["Programming"; "Data Structures"; "Algorithms"; "Version Control"; "Testing"];
      career_path := "Junior Dev ‚Üí Senior Dev ‚Üí Tech Lead ‚Üí Engineering Manager ‚Üí CTO";
      salary_range := "‚Çπ3-6L (Junior) to ‚Çπ30L+ (Senior)";
      growth_tips := "Contribute to open source, build projects, learn cloud technologies" |});
  ("data scientist",
   {| description := "Data Scientists analyze complex data to help organizations make better decisions.";
      skills := ["Python"; "Machine Learning"; "Statistics"; "SQL"; "Data Visualization"];
      career_path := "Junior Data Scientist ‚Üí Data Scientist ‚Üí Senior Data Scientist ‚Üí Lead/Principal ‚Üí Chief Data Officer";
      salary_range := "‚Çπ4-8L (Junior) to ‚Çπ35L+ (Senior)";
      growth_tips := "Kaggle competitions, publish research, learn deep learning" |});
  ("ai engineer",
   {| description := "AI Engineers develop and implement artificial intelligence solutions.";
      skills := ["Python"; "TensorFlow/PyTorch"; "Machine Learning"; "Neural Networks"; "MLOps"];
      career_path := "Junior AI Engineer ‚Üí AI Engineer ‚Üí Senior AI Engineer ‚Üí AI Lead ‚Üí AI Director";
      salary_range := "‚Çπ5-10L (Junior) to ‚Çπ40L+ (Senior)";
      growth_tips := "Build ML projects, read research papers, contribute to AI open source" |});
  ("web developer",
   {| description := "Web Developers create and maintain websites and web applications.";
      skills := ["HTML/CSS"; "JavaScript"; "React/Angular/Vue"; "Node.js"; "APIs"];
      career_path := "Junior Developer ‚Üí Frontend/Backend Developer ‚Üí Senior Developer ‚Üí Lead ‚Üí Architect";
      salary_range := "‚Çπ3-6L (Junior) to ‚Çπ25L+ (Senior)";
      growth_tips := "Build a strong portfolio, learn modern frameworks, contribute to projects" |});
  ("devops engineer",
   {| description := "DevOps Engineers bridge the gap between development and operations.";
      skills := ["Linux"; "Docker"; "Kubernetes"; "CI/CD"; "Cloud Platforms"];
      career_path := "Jr. DevOps ‚Üí DevOps Engineer ‚Üí Sr. DevOps ‚Üí DevOps Lead ‚Üí SRE Manager";
      salary_range := "‚Çπ4-8L (Junior) to ‚Çπ30L+ (Senior)";
      growth_tips := "Get cloud certifications, automate everything, learn infrastructure as code" |});
  ("cybersecurity",
   {| description := "Security Engineers protect systems and data from cyber threats.";
      skills := ["Network Security"; "Penetration Testing"; "Security Tools"; "Compliance"; "Incident Response"];
      career_path := "Security Analyst ‚Üí Security Engineer ‚Üí Senior Security ‚Üí Security Lead ‚Üí CISO";
      salary_range := "‚Çπ4-8L (Junior) to ‚Çπ35L+ (Senior)";
      growth_tips := "Get certifications (CISSP, CEH), participate in bug bounties, stay updated" |})
].

Definition keywords : list (string * list string) :=
[
  ("salary", ["salary"; "package"; "money"; "earn"; "compensation"; "ctc"]);
  ("skills", ["skill"; "learn"; "technology"; "tech"; "language"; "framework"; "missing"]);
  ("growth", ["growth"; "future"; "career path"; "promotion"; "advance"; "progress"]);
  ("job", ["job"; "interview"; "resume"; "hiring"; "placement"; "hunt"]);
  ("education", ["course"; "degree"; "study"; "college"; "university"; "masters"]);
  ("startup", ["startup"; "entrepreneurship"; "own business"; "founder"]);
  ("remote", ["remote"; "work from home"; "wfh"; "flexible"])
].

(** *** The response texts *)

(** The string returned at line 353 of [main.py]. *)
Definition salary_overview (career : option string) (guidance : Guidance) : string :=
  "üí∞ **Salary Overview for " +:+ str career +:+ ":**

" +:+ salary_range guidance +:+ "

üìà **Factors affecting salary:**
‚Ä¢ Your skills and experience level
‚Ä¢ Company size and industry
‚Ä¢ Location (metro cities offer more)
‚Ä¢ Negotiation skills

Would you like more specific salary information for a particular company or location?".

(** The string returned at line 355 of [main.py]. *)
Definition salary_information (career : option string) : string :=
  "üí∞ **Salary Information for " +:+ str career +:+ ":**

Salaries vary based on:
‚Ä¢ Experience level (entry-level to senior)
‚Ä¢ Company type (FAANG, startups, service-based)
‚Ä¢ Location (metro vs tier-2 cities)
‚Ä¢ Your skill set

**Typical ranges:**
‚Ä¢ Entry level: ‚Çπ3-6 LPA
‚Ä¢ Mid-level: ‚Çπ8-20 LPA
‚Ä¢ Senior level: ‚Çπ20-50+ LPA

Specific companies like Google, Microsoft, Amazon offer 20-50% higher packages.".

(** The string returned at line 359 of [main.py]. *)
Definition skills_to_develop (career : option string) (missing_skills : list string) : string :=
  "üéØ **Skills to Develop for " +:+ str career +:+ ":**

**Priority Skills:**
"
    +:+ bullets (take 5 missing_skills)
    +:+ "

**Recommended Learning Path:**
1. Start with fundamentals of each skill
2. Build practical projects
3. Get certifications if available
4. Practice on platforms like HackerRank
5. Contribute to open source

**Learning Resources:**
‚Ä¢ Coursera, Udemy for courses
‚Ä¢ YouTube tutorials
‚Ä¢ Official documentation
‚Ä¢ Hands-on projects".

(** The string returned at line 361 of [main.py]. *)
Definition essential_skills (career : option string) (guidance : Guidance) : string :=
  "üéØ **Essential Skills for " +:+ str career +:+ ":**

"
    +:+ bullets (skills guidance)
    +:+ "

**How to build these skills:**
1. **Programming:** Practice daily on LeetCode, HackerRank
2. **Frameworks:** Follow official docs and build projects
3. **Tools:** Get hands-on experience through internships
4. **Soft Skills:** Take leadership roles in college projects

**Recommended Resources:**
‚Ä¢ Online courses (Coursera, edX)
‚Ä¢ Books and documentation
‚Ä¢ Bootcamps and workshops".

(** The string returned at line 363 of [main.py]. *)
Definition skills_development (career : option string) : string :=
  "üéØ **Skills Development for " +:+ str career +:+ ":**

To excel in this career path, focus on:

**Technical Skills:**
‚Ä¢ Programming languages relevant to your field
‚Ä¢ Data structures and algorithms
‚Ä¢ Version control (Git)
‚Ä¢ Problem-solving abilities

**Soft Skills:**
‚Ä¢ Communication
‚Ä¢ Team collaboration
‚Ä¢ Time management
‚Ä¢ Continuous learning mindset

**Action Steps:**
1. Identify specific skills needed from job postings
2. Create a learning schedule
3. Build real-world projects
4. Get feedback and improve".

(** The string returned at line 367 of [main.py]. *)
Definition growth_path (career : option string) (guidance : Guidance) : string :=
  "üìà **Career Growth Path for " +:+ str career +:+ ":**

**Typical Progression:**
" +:+ career_path guidance +:+ "

**Growth Tips:**
‚Ä¢ " +:+ growth_tips guidance +:+ "

**Key Milestones:**
‚Ä¢ 0-2 years: Building fundamentals
‚Ä¢ 2-5 years: Specializing and taking ownership
‚Ä¢ 5+ years: Leadership and strategic impact

**What employers look for at each level:**
‚Ä¢ Junior: Learning ability, coding skills
‚Ä¢ Senior: Technical depth, mentoring
‚Ä¢ Lead: Strategy, people management".

(** The string returned at line 369 of [main.py]. *)
Definition growth_strategies (career : option string) : string :=
  "üìà **Career Growth in " +:+ str career +:+ ":**

**Growth Strategies:**
1. **Continuous Learning:** Stay updated with industry trends
2. **Network:** Build professional relationships
3. **Mentorship:** Find mentors and become one
4. **Visibility:** Contribute to projects and communities
5. **Results:** Deliver measurable impact

**Timeline:**
‚Ä¢ Year 1-2: Learn and adapt
‚Ä¢ Year 2-5: Specialize and lead
‚Ä¢ Year 5+: Strategic impact and leadership

**Accelerate Your Growth:**
‚Ä¢ Switch to product companies for faster growth
‚Ä¢ Consider international opportunities
‚Ä¢ Build a strong personal brand".

(** The string returned at line 372 of [main.py]. *)
Definition job_search_tips (career : option string) : string :=
  "üíº **Job Search Tips for " +:+ str career +:+ ":**

**Resume Tips:**
‚Ä¢ Highlight relevant projects and skills
‚Ä¢ Use action verbs and quantify achievements
‚Ä¢ Tailor resume for each application
‚Ä¢ Include GitHub/portfolio links

**Interview Preparation:**
‚Ä¢ Practice coding on LeetCode
‚Ä¢ Prepare system design questions
‚Ä¢ Study company-specific questions
‚Ä¢ Mock interviews with peers

**Where to Apply:**
‚Ä¢ Company career pages
‚Ä¢ LinkedIn, Naukri, Indeed
‚Ä¢ referrals (most effective!)
‚Ä¢ Campus placements

**Top Companies:**
FAANG, Microsoft, Goldman Sachs, and growing startups".

(** The string returned at line 375 of [main.py]. *)
Definition educational_path (career : option string) : string :=
  "üìö **Educational Path for " +:+ str career +:+ ":**

**Minimum Requirements:**
‚Ä¢ Bachelor's degree in relevant field
‚Ä¢ Strong foundation in programming/math

**Recommended Courses:**
‚Ä¢ Data Structures & Algorithms
‚Ä¢ Database Management Systems
‚Ä¢ Operating Systems
‚Ä¢ Computer Networks

**Higher Studies (Optional):**
‚Ä¢ M.Tech for research roles
‚Ä¢ MBA for management roles
‚Ä¢ Certifications for specific skills

**Self-Learning:**
‚Ä¢ Online platforms: Coursera, edX, Udemy
‚Ä¢ Bootcamps for intensive training
‚Ä¢ Open source contributions".

(** The string returned at line 378 of [main.py]. *)
Definition startup_advice (career : option string) : string :=
  "üöÄ **Startup Guidance for " +:+ str career +:+ ":**

**Starting a Tech Startup:**
1. **Validate your idea:** Research market needs
2. **Build an MVP:** Start with minimum features
3. **Find co-founders:** Complementary skills
4. **Get initial users:** Early adopter program
5. **Seek funding:** Angels, VCs, incubators

**Essential Skills:**
‚Ä¢ Technical expertise (you need to build!)
‚Ä¢ Business development
‚Ä¢ Marketing and sales
‚Ä¢ Fundraising

**Resources:**
‚Ä¢ Startup incubators (Y Combinator, 91springboard)
‚Ä¢ Government schemes
‚Ä¢ Angel networks

**Risk Assessment:**
‚Ä¢ High risk, high reward
‚Ä¢ Ensure financial runway of 12-18 months".

(** The string returned at line 381 of [main.py]. *)
Definition remote_work (career : option string) : string :=
  "üè† **Remote Work in " +:+ str career +:+ ":**

**Remote-Friendly Aspects:**
‚Ä¢ Software development is highly remote-friendly
‚Ä¢ Data science roles often allow remote work
‚Ä¢ DevOps and cloud roles are remote-friendly

**Tips for Remote Success:**
‚Ä¢ Create a dedicated workspace
‚Ä¢ Maintain regular hours
‚Ä¢ Over-communicate with team
‚Ä¢ Use collaboration tools effectively
‚Ä¢ Build strong online presence

**Companies Offering Remote:**
‚Ä¢ Most tech companies post-pandemic
‚Ä¢ Product companies are more flexible
‚Ä¢ Check job descriptions for remote policy

**Building Remote Career:**
‚Ä¢ Time zone alignment matters
‚Ä¢ Strong communication is key
‚Ä¢ Self-discipline and motivation essential".

(** The string returned at line 386 of [main.py]. *)
Definition career_overview (career : option string) (guidance : Guidance) : string :=
  "ü§ñ **" +:+ str career +:+ " Overview:**

" +:+ description guidance +:+ "

**What you'll do:**
‚Ä¢ Design and implement solutions
‚Ä¢ Collaborate with cross-functional teams
‚Ä¢ Stay updated with technology trends
‚Ä¢ Solve complex problems

**Best suited for you if:**
‚Ä¢ You enjoy problem-solving
‚Ä¢ You like continuous learning
‚Ä¢ You're detail-oriented
‚Ä¢ You work well in teams

**Getting Started:**
1. Build a strong foundation in basics
2. Create projects for your portfolio
3. Network with professionals
4. Apply for internships

Would you like more specific information about any aspect?".

(** The string returned at line 388 of [main.py]. *)
Definition career_choice (career : option string) : string :=
  "ü§ñ **" +:+ str career +:+ " Career Guidance:**

This is a great career choice for engineering students!

**To succeed in this field:**
‚Ä¢ Focus on core technical skills
‚Ä¢ Build practical projects
‚Ä¢ Stay updated with industry trends
‚Ä¢ Network with professionals

**Next Steps:**
1. Identify specific skills needed
2. Create a learning roadmap
3. Start building projects
4. Apply for relevant positions

Would you like personalized advice based on your profile?".

(** The string returned at line 390 of [main.py]. *)
Definition assistant_greeting : string :=
  "ü§ñ **Career Guidance Assistant:**

I'd be happy to help with your career questions! You can ask me about:

‚Ä¢ üí∞ Salary and compensation
‚Ä¢ üéØ Skills to learn and develop
‚Ä¢ üìà Career growth and progression
‚Ä¢ üíº Job search and interview tips
‚Ä¢ üìö Education and courses
‚Ä¢ üöÄ Startup and entrepreneurship
‚Ä¢ üè† Remote work opportunities

**To provide better guidance:**
1. Fill in your profile details
2. Get career recommendations
3. Ask specific questions

What would you like to know more about?".

(** *** The responder *)

Record ChatData : Type := {
  c_education : field string;
  c_interests : field (list string);
  c_current_skills : field (list string);
  c_career : field string;
  c_missing_skills : field (list string);
  c_question : field string
}.

(** [for key, value in career_guidance.items()]: the first key that contains
    the career or is contained in it. *)
Fixpoint find_guidance (career_lower : string) (table : list (string * Guidance))
    : option Guidance :=
  match table with
  | [] => None
  | (key, value) :: rest =>
      if str_in key career_lower || str_in career_lower key then Some value
      else find_guidance career_lower rest
  end.

(** [for word in words]: the inner loop of the category detection. *)
Fixpoint scan_words (cat : string) (words : list string) (question : string)
    (category : option string) : option string :=
  match words with
  | [] => category
  | word :: rest =>
      if str_in word question then Some cat
      else scan_words cat rest question category
  end.

(** [for cat, words in keywords.items()]: the outer loop, left as soon as
    [category] is set. *)
Fixpoint detect_category (table : list (string * list string)) (question : string)
    (category : option string) : option string :=
  match table with
  | [] => category
  | (cat, words) :: rest =>
      let category := scan_words cat words question category in
      if truthy_str category then category
      else detect_category rest question category
  end.

(** [# Normalize career name] and [# Find matching career guidance]. *)
Definition guidance_for (career : option string) : option Guidance :=
  let career_lower := if truthy_str career then lower (str career) else "" in
  find_guidance career_lower career_guidance.

(** [# Detect question category] and [# Default category if no match]. *)
Definition question_category (question : string) : option string :=
  let category := detect_category keywords question None in
  if truthy_str category then category else Some "general".

(** [# Generate response based on category]: the [if]/[elif] chain. *)
Definition generate_response (category career : option string)
    (missing_skills : option (list string)) (guidance : option Guidance) : string :=
  if decide (category = Some "salary") then
    match guidance with
    | Some g => salary_overview career g
    | None => salary_information career
    end
  else if decide (category = Some "skills") then
    if truthy_list missing_skills then
      skills_to_develop career (or_default missing_skills [])
    else
      match guidance with
      | Some g => essential_skills career g
      | None => skills_development career
      end
  else if decide (category = Some "growth") then
    match guidance with
    | Some g => growth_path career g
    | None => growth_strategies career
    end
  else if decide (category = Some "job") then job_search_tips career
  else if decide (category = Some "education") then educational_path career
  else if decide (category = Some "startup") then startup_advice career
  else if decide (category = Some "remote") then remote_work career
  else
    match guidance with
    | Some g => career_overview career g
    | None =>
        if truthy_str career then career_choice career
        else assistant_greeting
    end.

Definition get_rule_based_response (data : ChatData) : M string :=
  question <- method_lower (get_default (c_question data) "") ;;
  let career := get_default (c_career data) "" in
  let missing_skills := get_default (c_missing_skills data) [] in
  let guidance := guidance_for career in
  let category := question_category question in
  ret (generate_response category career missing_skills guidance).

Record ChatResponse : Type := {
  response : string
}.

(** [career_chat].  The prompt is built from [data.get(...)] reads only.  The
    outcome of the call to the language-model service is the argument [llm]:
    [Some content] for a reply with status 200 and the expected shape, [None]
    for any other status or any exception, which the handler swallows. *)
Definition career_chat (llm : option string) (data : ChatData) : M ChatResponse :=
  match llm with
  | Some content => ret {| response := content |}
  | None =>
      response_text <- get_rule_based_response data ;;
      ret {| response := response_text |}
  end.

(** ** Vocabulary of the properties *)

(** The two ways of asking for recommendations. *)
Inductive Query : Type :=
  | Direct (st : Student)
  | Quiz (data : QuizData).

(** The [recommended_careers] of the response, when the handler returns. *)
Definition returned_careers (q : Query) (w : World) : option (list Recommendation) :=
  match q with
  | Direct st =>
      match (recommend_career st w).1 with
      | Ok resp => Some (recommended_careers resp)
      | Raise _ => None
      end
  | Quiz data =>
      match (quiz_recommend_career data w).1 with
      | Ok resp => Some (qr_recommended_careers resp)
      | Raise _ => None
      end
  end.

Definition top_k (q : Query) : nat :=
  match q with
  | Direct _ => 3
  | Quiz _ => 5
  end.

(** The interest set a query is matched with, and the skills it brings. *)
Definition field_set (f : field (list string)) : gset string :=
  match f with
  | Present l => list_to_set l
  | _ => ∅
  end.

Definition query_interests (q : Query) : gset string :=
  match q with
  | Direct st => field_set (s_interests st)
  | Quiz data =>
      list_to_set
        (dict_get domain_interests (get_default (q_domain data) "")
           technical_interests)
  end.

Definition query_skills (q : Query) : gset string :=
  match q with
  | Direct st => field_set (s_current_skills st)
  | Quiz data => field_set (q_current_skills data)
  end.

(** Number of interest tags a record shares with the query. *)
Definition match_score (qi : gset string) (c : CareerRecord) : nat :=
  size (qi ∩ list_to_set (interests c)).

(** [r] is the recommendation made from the catalog record [c]. *)
Definition made_from (qi : gset string) (c : CareerRecord) (r : Recommendation) : Prop :=
  r_career r = career c ∧
  r_required_skills r = required_skills c ∧
  interest_match_score r = match_score qi c.

(** The missing skills of [r] are its required skills minus the skills [sk]
    of the query, each listed once. *)
Definition exact_gap (sk : gset string) (r : Recommendation) : Prop :=
  list_to_set (missing_skills r) = list_to_set (r_required_skills r) ∖ sk ∧
  NoDup (missing_skills r).

(** Non-increasing keys, and non-increasing scores. *)
Definition desc {A} (key : A -> nat) (a b : A) : Prop := key b ≤ key a.

Definition by_score_desc : relation Recommendation := desc interest_match_score.

(** [full] is [cands] stably sorted by decreasing score. *)
Definition stable_ranking (cands full : list Recommendation) : Prop :=
  full ≡ₚ cands ∧
  StronglySorted by_score_desc full ∧
  ∀ k, filter (λ r, interest_match_score r = k) full
       = filter (λ r, interest_match_score r = k) cands.

(** The catalog records a query matches, in catalog order. *)
Definition matching (qi : gset string) (cs : list CareerRecord) : list CareerRecord :=
  filter (λ c, 1 ≤ match_score qi c) cs.

(** *** A small catalog for the examples *)

Definition mk_career (name : string) (ints reqs : list string) : CareerRecord :=
  {| career := name; interests := ints; required_skills := reqs;
     difficulty := "Medium"; branch := None; tools := None;
     certifications := None; exams := None; future_trends := None;
     startup_guidance := None |}.

Definition demo_world : World :=
  {| careers :=
       [ mk_career "Software Engineer" ["Programming"; "Data"] ["Python"; "Git"];
         mk_career "Data Scientist" ["Data"; "AI"; "Programming"] ["Python"; "SQL"];
         mk_career "Designer" ["Design"; "Art"] ["Figma"];
         mk_career "Web Developer" ["Programming"; "Web Development"] ["HTML"];
         mk_career "Software Engineer" ["Software"] ["Rust"; "Python"];
         mk_career "ML Engineer" ["AI"; "Data"; "Programming"] ["Python"];
         mk_career "Cloud Architect" ["Cloud"] ["AWS"] ];
     SKILL_ROADMAPS := SKILL_ROADMAPS_loaded |}.

Definition demo_student : Student :=
  {| s_name := Present "Asha";
     s_interests := Present ["Programming"; "Data"];
     s_current_skills := Present ["Python"];
     s_target_career := Present "Software Engineer" |}.

Definition demo_quiz (domain : field string) : QuizData :=
  {| q_domain := domain; q_current_skills := Present ["Python"] |}.

Definition demo_chat (career question : field string) : ChatData :=
  {| c_education := Absent; c_interests := Absent; c_current_skills := Absent;
     c_career := career; c_missing_skills := Absent; c_question := question |}.

(** What the two recommendation handlers answer on the small catalog. *)
Definition demo_direct_careers : list Recommendation :=
  Eval vm_compute in
    default [] (returned_careers (Direct demo_student) demo_world).

Definition demo_quiz_careers : list Recommendation :=
  Eval vm_compute in
    default [] (returned_careers (Quiz (demo_quiz (Present "T"))) demo_world).

(** The first recommendation of the quiz answer. *)
Definition demo_quiz_top : Recommendation :=
  Eval vm_compute in
    default (Build_Recommendation "" 0 [] "" [] [] [] [] [] [] Absent)
      (head demo_quiz_careers).

(** The domain codes of the quiz. *)
Definition known_domains : list string := ["T"; "C"; "B"; "S"; "R"].

(** A request whose domain is missing, [null], or no code of the quiz. *)
Definition unknown_domain (f : field string) : Prop :=
  ∀ d, f = Present d -> d ∉ known_domains.

(** Two outcomes of the quiz handler that agree up to the fields [domain] and
    [domain_name] of the response. *)
Definition same_recommendations (a b : result QuizResponse) : Prop :=
  match a, b with
  | Ok ra, Ok rb => qr_recommended_careers ra = qr_recommended_careers rb
  | Raise ea, Raise eb => ea = eb
  | _, _ => False
  end.

(** *** Lookups by career name *)

(** The catalog records named [target], in catalog order. *)
Definition named (target : option string) (cs : list CareerRecord) : list CareerRecord :=
  filter (λ c, Some (career c) = target) cs.

(** [list(set(career["required_skills"]) - set(current_skills))]. *)
Definition gap_of (c : CareerRecord) (sk : gset string) : list string :=
  elements (list_to_set (required_skills c) ∖ sk).

(** The answer of skill-gap for the record it settles on. *)
Definition gap_result (c : CareerRecord) (sk : gset string) : gmap string value :=
  <["missing_skills" := VList (gap_of c sk)]> (<["career" := VStr (career c)]> ∅).

(** The answer of learning-roadmap when the career is found. *)
Definition roadmap_response (target_career : option string) (missing : list string)
    (roadmap : gmap string SkillRoadmapEntry) : gmap string value :=
  <["learning_roadmap" := VRoadmap roadmap]>
    (<["missing_skills" := VList missing]>
       {[ "career" := opt_value target_career ]}).

(** The roadmap entry of a skill: the table's, or else the generic one. *)
Definition roadmap_entry (table : gmap string SkillRoadmapEntry) (skill : string)
    : SkillRoadmapEntry :=
  default (generic_roadmap skill) (table !! skill).

(** A [result] dict of skill-gap is empty or holds one answer. *)
Definition settled (res : gmap string value) : Prop :=
  res = ∅ ∨ ∃ c sk, res = gap_result c sk.

(** *** The classification of a question, as the specification words it *)

(** Some keyword of the list occurs in the question. *)
Definition mentions (question : string) (words : list string) : bool :=
  existsb (λ word, str_in word question) words.

(** The first category, in the order of the table, with a keyword that occurs
    in the question; "general" when there is none. *)
Definition first_category (question : string) : string :=
  match find (λ entry, mentions question entry.2) keywords with
  | Some entry => entry.1
  | None => "general"
  end.



(** Chat requests of the examples. *)
Definition salary_question : ChatData :=
  {| c_education := Absent; c_interests := Absent; c_current_skills := Absent;
     c_career := Present "Software Engineer"; c_missing_skills := Absent;
     c_question := Present "What salary can I expect?" |}.

Definition null_question : ChatData :=
  {| c_education := Absent; c_interests := Absent; c_current_skills := Absent;
     c_career := Present "Software Engineer"; c_missing_skills := Absent;
     c_question := Null |}.

(** ** Vocabulary of the further properties *)

(** The recommendation a query gets from the catalog record [c]: the dict
    literal of the two handlers.  Only direct mode emits [startup_guidance]. *)
Definition recommendation_of (q : Query) (c : CareerRecord) : Recommendation :=
  {| r_career := career c;
     interest_match_score := match_score (query_interests q) c;
     missing_skills := gap_of c (query_skills q);
     r_difficulty := difficulty c;
     r_branch := or_default (branch c) [];
     r_required_skills := required_skills c;
     r_tools := or_default (tools c) [];
     r_certifications := or_default (certifications c) [];
     r_exams := or_default (exams c) [];
     r_future_trends := or_default (future_trends c) [];
     r_startup_guidance :=
       match q with
       | Direct _ => opt_to_field (startup_guidance c)
       | Quiz _ => Absent
       end |}.

(** The key holds a list. *)
Definition is_list (f : field (list string)) : Prop := ∃ l, f = Present l.


(** Two readings of the same key that [set(...)] cannot tell apart. *)
Definition same_set (f g : field (list string)) : Prop :=
  match f, g with
  | Absent, Absent => True
  | Null, Null => True
  | Present l, Present k => (list_to_set l : gset string) = list_to_set k
  | _, _ => False
  end.

(** A recommendation without its [startup_guidance] key. *)
Definition without_startup_guidance (r : Recommendation) : Recommendation :=
  {| r_career := r_career r;
     interest_match_score := interest_match_score r;
     missing_skills := missing_skills r;
     r_difficulty := r_difficulty r;
     r_branch := r_branch r;
     r_required_skills := r_required_skills r;
     r_tools := r_tools r;
     r_certifications := r_certifications r;
     r_exams := r_exams r;
     r_future_trends := r_future_trends r;
     r_startup_guidance := Absent |}.

(** A request that lists the interests of [demo_student] in another order and
    one of them twice. *)
Definition demo_student_shuffled : Student :=
  {| s_name := Present "Asha";
     s_interests := Present ["Data"; "Programming"; "Data"];
     s_current_skills := Present ["Python"; "Python"];
     s_target_career := Absent |}.

(** Requests of the examples: a known career and no [current_skills] key; a
    career that the small catalog lists once. *)
Definition demo_no_skills : Student :=
  {| s_name := Absent; s_interests := Absent; s_current_skills := Absent;
     s_target_career := Present "Designer" |}.

Definition demo_data_scientist : Student :=
  {| s_name := Absent; s_interests := Absent;
     s_current_skills := Present ["Python"; "SQL"];
     s_target_career := Present "Data Scientist" |}.

Definition demo_sql_gap : Student :=
  {| s_name := Absent; s_interests := Absent;
     s_current_skills := Present ["Python"];
     s_target_career := Present "Data Scientist" |}.


(** A direct request whose interests are the Technical keywords of the quiz. *)
Definition demo_technical_student : Student :=
  {| s_name := Present "Ravi";
     s_interests := Present technical_interests;
     s_current_skills := Present ["Python"];
     s_target_career := Absent |}.

Definition demo_technical_careers : list Recommendation :=
  Eval vm_compute in
    default [] (returned_careers (Direct demo_technical_student) demo_world).

Definition learn_question : ChatData :=
  {| c_education := Absent; c_interests := Absent; c_current_skills := Absent;
     c_career := Present "Web Developer"; c_missing_skills := Present ["React"];
     c_question := Present "What should I LEARN next?" |}.

(** * Properties *)

(** ** The monad *)

Lemma bind_Ok_inv {A B} (m : M A) (k : A -> M B) w b w2 :
  (x <- m ;; k x) w = (Ok b, w2) ->
  ∃ a w1, m w = (Ok a, w1) ∧ k a w1 = (Ok b, w2).
Proof.
  unfold bind. destruct (m w) as [[a|e] w1]; [eauto | discriminate].
Qed.

Lemma readonly_ret {A} (a : A) : readonly (ret a).
Proof. by intros w. Qed.

Lemma readonly_raise {A} e : readonly (@raise A e).
Proof. by intros w. Qed.

Lemma readonly_bind {A B} (m : M A) (k : A -> M B) :
  readonly m -> (∀ a, readonly (k a)) -> readonly (x <- m ;; k x).
Proof.
  intros Hm Hk w. unfold bind. specialize (Hm w).
  destruct (m w) as [[a|e] w1]; simpl in *; subst; [apply Hk | done].
Qed.

Lemma readonly_read_careers : readonly read_careers.
Proof. by intros w. Qed.

Lemma readonly_read_SKILL_ROADMAPS : readonly read_SKILL_ROADMAPS.
Proof. by intros w. Qed.

Lemma readonly_subscript {A} (f : field A) : readonly (subscript f).
Proof. destruct f; by intros w. Qed.

Lemma readonly_set_of x : readonly (set_of x).
Proof. destruct x; by intros w. Qed.

Lemma readonly_method_lower x : readonly (method_lower x).
Proof. destruct x; by intros w. Qed.

Create HintDb readonly.
#[local] Hint Resolve readonly_ret readonly_raise readonly_read_careers
  readonly_read_SKILL_ROADMAPS readonly_subscript readonly_set_of
  readonly_method_lower : readonly.

Ltac readonly_step :=
  match goal with
  | |- readonly (bind _ _) => apply readonly_bind; [| intros ?]
  | |- readonly (if ?b then _ else _) => destruct b
  | |- readonly (match ?o with _ => _ end) => destruct o
  | |- readonly (let _ := _ in _) => cbv zeta
  | |- _ => solve [auto with readonly]
  end.

Ltac readonly_tac := cbv zeta; repeat readonly_step.

Lemma readonly_recommend_scan st cs recs : readonly (recommend_scan st cs recs).
Proof.
  revert recs. induction cs as [|c cs IH]; intros recs; simpl; readonly_tac.
Qed.

Lemma readonly_quiz_scan data ri cs recs : readonly (quiz_scan data ri cs recs).
Proof.
  revert recs. induction cs as [|c cs IH]; intros recs; simpl; readonly_tac.
Qed.

Lemma readonly_skill_gap_scan st cs res : readonly (skill_gap_scan st cs res).
Proof.
  revert res. induction cs as [|c cs IH]; intros res; simpl; readonly_tac.
Qed.

Lemma readonly_build_roadmap l rm : readonly (build_roadmap l rm).
Proof.
  revert rm. induction l as [|s l IH]; intros rm; simpl; readonly_tac.
Qed.

Lemma readonly_roadmap_scan t cur cs : readonly (roadmap_scan t cur cs).
Proof.
  pose proof readonly_build_roadmap.
  induction cs as [|c cs IH]; simpl; readonly_tac.
Qed.

Lemma readonly_get_rule_based_response data : readonly (get_rule_based_response data).
Proof. unfold get_rule_based_response. readonly_tac. Qed.

#[local] Hint Resolve readonly_recommend_scan readonly_quiz_scan
  readonly_skill_gap_scan readonly_build_roadmap readonly_roadmap_scan
  readonly_get_rule_based_response : readonly.


(** ** The stable descending sort *)

Section sort_desc.
Context {A : Type} (key : A -> nat).

Lemma insert_desc_perm x l : insert_desc key x l ≡ₚ x :: l.
Proof.
  induction l as [|y l IH]; simpl; [done|].
  destruct (key y <=? key x); [done|].
  rewrite IH. apply perm_swap.
Qed.

Lemma sort_desc_perm l : sort_desc key l ≡ₚ l.
Proof.
  induction l as [|x l IH]; simpl; [done|].
  rewrite insert_desc_perm. by rewrite IH.
Qed.

Lemma insert_desc_sorted x l :
  StronglySorted (desc key) l -> StronglySorted (desc key) (insert_desc key x l).
Proof.
  induction 1 as [|y l Hs IH Hy]; simpl.
  - repeat constructor.
  - destruct (Nat.leb_spec (key y) (key x)) as [Hle|Hlt].
    + constructor; [by constructor|].
      constructor; [done|].
      eapply Forall_impl; [exact Hy|]. unfold desc. intros z ?. lia.
    + constructor; [done|].
      rewrite insert_desc_perm. constructor; [unfold desc; lia | done].
Qed.

Lemma sort_desc_sorted l : StronglySorted (desc key) (sort_desc key l).
Proof.
  induction l as [|x l IH]; simpl; [constructor|].
  by apply insert_desc_sorted.
Qed.

Lemma insert_desc_stable k x l :
  filter (λ a, key a = k) (insert_desc key x l)
  = filter (λ a, key a = k) (x :: l).
Proof.
  induction l as [|y l IH]; simpl; [done|].
  destruct (Nat.leb_spec (key y) (key x)) as [Hle|Hlt]; [done|].
  rewrite filter_cons, IH, !filter_cons.
  repeat case_decide; try done; lia.
Qed.

Lemma sort_desc_stable k l :
  filter (λ a, key a = k) (sort_desc key l) = filter (λ a, key a = k) l.
Proof.
  induction l as [|x l IH]; simpl; [done|].
  rewrite insert_desc_stable, !filter_cons, IH. done.
Qed.

Lemma StronglySorted_take n l :
  StronglySorted (desc key) l -> StronglySorted (desc key) (take n l).
Proof.
  intros Hs. revert n. induction Hs as [|y l Hs IH Hy]; intros [|n]; simpl;
    try constructor; [apply IH|].
  eapply Forall_take in Hy. exact Hy.
Qed.
End sort_desc.

(** ** The two catalog scans *)

Lemma subscript_Ok_inv {A} (f : field A) w o w' :
  subscript f w = (Ok o, w') -> w' = w ∧ f ≠ Absent ∧ get f = o.
Proof. destruct f; simpl; intros [= <- <-] || intros [=]; done. Qed.

Lemma set_of_Ok_inv x w X w' :
  set_of x w = (Ok X, w') -> w' = w ∧ ∃ l, x = Some l ∧ X = list_to_set l.
Proof. destruct x; simpl; intros [= <- <-] || intros [=]; eauto. Qed.

Lemma field_set_get (f : field (list string)) l :
  get f = Some l -> field_set f = list_to_set l.
Proof. destruct f; simpl; congruence. Qed.

Lemma field_set_get_default (f : field (list string)) l :
  get_default f [] = Some l -> field_set f = list_to_set l.
Proof. destruct f; simpl; intros [= <-]; done. Qed.

Lemma matching_cons qi c cs :
  matching qi (c :: cs)
  = if decide (1 ≤ match_score qi c) then c :: matching qi cs else matching qi cs.
Proof. unfold matching. rewrite filter_cons. done. Qed.

Lemma exact_gap_elements (sk : gset string) r :
  missing_skills r = elements (list_to_set (r_required_skills r) ∖ sk) ->
  exact_gap sk r.
Proof.
  intros H. unfold exact_gap. rewrite H.
  split; [apply list_to_set_elements_L | apply NoDup_elements].
Qed.

Lemma recommend_scan_Ok st cs : ∀ recs w out w',
  recommend_scan st cs recs w = (Ok out, w') ->
  ∃ cands, out = recs ++ cands ∧
    Forall2 (λ c r, made_from (field_set (s_interests st)) c r ∧
                    exact_gap (field_set (s_current_skills st)) r)
      (matching (field_set (s_interests st)) cs) cands.
Proof.
  induction cs as [|c cs IH]; intros recs w out w'; simpl.
  - intros [= <- <-]. exists []. by rewrite app_nil_r.
  - intros H.
    apply bind_Ok_inv in H as (si & w1 & H1 & H).
    apply subscript_Ok_inv in H1 as (-> & _ & Hsi).
    apply bind_Ok_inv in H as (qi & w2 & H2 & H).
    apply set_of_Ok_inv in H2 as (-> & l & -> & ->).
    rewrite (field_set_get _ _ Hsi), matching_cons. unfold match_score at 1.
    set (n := size (list_to_set l ∩ list_to_set (interests c) : gset string)) in *.
    destruct (Nat.ltb_spec 0 n) as [Hpos|Hzero].
    + apply bind_Ok_inv in H as (sk & w3 & H3 & H).
      apply subscript_Ok_inv in H3 as (-> & _ & Hsk).
      apply bind_Ok_inv in H as (qs & w4 & H4 & H).
      apply set_of_Ok_inv in H4 as (-> & l' & -> & ->).
      apply IH in H as (cands & -> & HF).
      rewrite (field_set_get _ _ Hsi) in HF.
      rewrite (field_set_get _ _ Hsk) in *.
      destruct (decide (1 ≤ n)); [|lia].
      eexists (_ :: cands). split; [by rewrite <- app_assoc|].
      constructor; [|done]. split; [done|]. by apply exact_gap_elements.
    + apply IH in H as (cands & -> & HF).
      rewrite (field_set_get _ _ Hsi) in HF.
      destruct (decide (1 ≤ n)); [lia|]. eauto.
Qed.

Lemma quiz_scan_Ok data ri cs : ∀ recs w out w',
  quiz_scan data ri cs recs w = (Ok out, w') ->
  ∃ cands, out = recs ++ cands ∧
    Forall2 (λ c r, made_from (list_to_set ri) c r ∧
                    exact_gap (field_set (q_current_skills data)) r)
      (matching (list_to_set ri) cs) cands.
Proof.
  induction cs as [|c cs IH]; intros recs w out w'; simpl.
  - intros [= <- <-]. exists []. by rewrite app_nil_r.
  - intros H. rewrite matching_cons. unfold match_score at 1.
    rewrite (comm_L (∩) (list_to_set (interests c)) (list_to_set ri)) in H.
    set (n := size (list_to_set ri ∩ list_to_set (interests c) : gset string)) in *.
    destruct (Nat.ltb_spec 0 n) as [Hpos|Hzero].
    + apply bind_Ok_inv in H as (qs & w4 & H4 & H).
      apply set_of_Ok_inv in H4 as (-> & l' & Hsk & ->).
      apply IH in H as (cands & -> & HF).
      rewrite (field_set_get_default _ _ Hsk) in *.
      destruct (decide (1 ≤ n)); [|lia].
      eexists (_ :: cands). split; [by rewrite <- app_assoc|].
      constructor; [|done]. split; [done | by apply exact_gap_elements].
    + apply IH in H as (cands & -> & HF).
      destruct (decide (1 ≤ n)); [lia|]. eauto.
Qed.

Lemma read_careers_Ok_inv w cs w' :
  read_careers w = (Ok cs, w') -> w' = w ∧ cs = careers w.
Proof. by intros [= <- <-]. Qed.

Lemma returned_careers_inv q w out :
  returned_careers q w = Some out ->
  ∃ cands,
    Forall2 (λ c r, made_from (query_interests q) c r ∧ exact_gap (query_skills q) r)
      (matching (query_interests q) (careers w)) cands ∧
    out = take (top_k q) (sort_desc interest_match_score cands).
Proof.
  destruct q as [st|data]; simpl.
  - destruct (recommend_career st w) as [[resp|e] w'] eqn:E; simpl; [|done].
    intros [= <-]. unfold recommend_career in E.
    apply bind_Ok_inv in E as (cs & w1 & H1 & E).
    apply read_careers_Ok_inv in H1 as [-> ->].
    apply bind_Ok_inv in E as (recs & w2 & H2 & E).
    apply recommend_scan_Ok in H2 as (cands & -> & HF).
    apply bind_Ok_inv in E as (name & w3 & _ & E).
    injection E as <- _. eauto.
  - destruct (quiz_recommend_career data w) as [[resp|e] w'] eqn:E; simpl; [|done].
    intros [= <-]. unfold quiz_recommend_career in E.
    apply bind_Ok_inv in E as (cs & w1 & H1 & E).
    apply read_careers_Ok_inv in H1 as [-> ->].
    apply bind_Ok_inv in E as (recs & w2 & H2 & E).
    apply quiz_scan_Ok in H2 as (cands & -> & HF).
    injection E as <- _. eauto.
Qed.

Lemma matching_scores qi (X : Recommendation -> Prop) cs cands :
  Forall2 (λ c r, made_from qi c r ∧ X r) (matching qi cs) cands ->
  Forall (λ r, 1 ≤ interest_match_score r) cands.
Proof.
  intros HF.
  assert (Forall (λ c, 1 ≤ match_score qi c) (matching qi cs)) as Hm.
  { apply Forall_forall. intros c Hc. by apply list_elem_of_filter in Hc as [? _]. }
  induction HF as [|c r m cands [(_ & _ & Hs) _] _ IH]; [constructor|].
  inversion Hm; subst. constructor; [lia | auto].
Qed.

Lemma sort_desc_stable_ranking cands :
  stable_ranking cands (sort_desc interest_match_score cands).
Proof.
  split; [apply sort_desc_perm|].
  split; [apply sort_desc_sorted | intros k; apply sort_desc_stable].
Qed.

(** C1: in both modes the returned [recommended_careers] holds only entries
    with [interest_match_score >= 1], is sorted by non-increasing score, and is
    the first 3 (direct mode) or 5 (quiz mode) entries of the stable
    descending ranking of the matching catalog records: recommendations with
    equal scores keep the order of the catalog. *)
Theorem recommended_careers_ranked (q : Query) (w : World) (out : list Recommendation) :
  returned_careers q w = Some out ->
  Forall (λ r, 1 ≤ interest_match_score r) out ∧
  StronglySorted by_score_desc out ∧
  ∃ cands full,
    Forall2 (made_from (query_interests q))
      (matching (query_interests q) (careers w)) cands ∧
    stable_ranking cands full ∧
    out = take (top_k q) full.
Proof.
  intros H. apply returned_careers_inv in H as (cands & HF & ->).
  pose proof (matching_scores _ _ _ _ HF) as Hs.
  pose proof (sort_desc_stable_ranking cands) as Hr.
  split; [|split].
  - apply Forall_take. by rewrite (sort_desc_perm interest_match_score cands).
  - apply StronglySorted_take, sort_desc_sorted.
  - exists cands, (sort_desc interest_match_score cands).
    split; [|done]. eapply Forall2_impl; [exact HF|]. by intros c r [? _].
Qed.

Lemma recommended_careers_ranked_witness :
  Forall (λ r, 1 ≤ interest_match_score r) demo_direct_careers ∧
  StronglySorted by_score_desc demo_direct_careers ∧
  ∃ cands full,
    Forall2 (made_from (query_interests (Direct demo_student)))
      (matching (query_interests (Direct demo_student)) (careers demo_world)) cands ∧
    stable_ranking cands full ∧
    demo_direct_careers = take (top_k (Direct demo_student)) full.
Proof.
  apply (recommended_careers_ranked (Direct demo_student) demo_world).
  vm_compute. reflexivity.
Defined.

(** On the small catalog four records match the direct query.  The three
    with score 2 come first, in catalog order; "Web Developer" (score 1)
    stands before "ML Engineer" in the catalog, is ranked after it and falls
    outside the top 3. *)
Example demo_direct_ranking :
  map (λ r, (r_career r, interest_match_score r)) demo_direct_careers
  = [("Software Engineer", 2); ("Data Scientist", 2); ("ML Engineer", 2)].
Proof. reflexivity. Qed.

(** The quiz query for domain "T" matches six records and keeps five: among
    equal scores the catalog order stands, and "Cloud Architect", the last
    record with score 1, is cut. *)
Example demo_quiz_ranking :
  map (λ r, (r_career r, interest_match_score r)) demo_quiz_careers
  = [("Data Scientist", 3); ("ML Engineer", 3); ("Software Engineer", 2);
     ("Web Developer", 2); ("Software Engineer", 1)].
Proof. reflexivity. Qed.

(** C2: every recommendation of a response is made from a catalog record, and
    its [missing_skills] list holds exactly the skills the record requires
    that are not among the current skills of the request: as sets they are
    equal, and no skill is listed twice. *)
Theorem missing_skills_exact (q : Query) (w : World) (out : list Recommendation)
    (r : Recommendation) :
  returned_careers q w = Some out ->
  r ∈ out ->
  ∃ c, c ∈ careers w ∧
       made_from (query_interests q) c r ∧
       list_to_set (missing_skills r)
       = (list_to_set (required_skills c) ∖ query_skills q : gset string) ∧
       NoDup (missing_skills r).
Proof.
  intros H Hr. apply returned_careers_inv in H as (cands & HF & ->).
  apply (subseteq_take (top_k q)) in Hr.
  rewrite (sort_desc_perm interest_match_score cands) in Hr.
  apply list_elem_of_lookup in Hr as [i Hi].
  destruct (Forall2_lookup_r _ _ _ _ _ HF Hi) as (c & Hc & Hm & Hg & Hnd).
  exists c. split.
  - apply list_elem_of_lookup_2 in Hc. by apply list_elem_of_filter in Hc as [_ ?].
  - split; [done|]. split; [|done].
    destruct Hm as (_ & <- & _). done.
Qed.

Lemma missing_skills_exact_witness :
  ∃ c, c ∈ careers demo_world ∧
       made_from (query_interests (Quiz (demo_quiz (Present "T")))) c demo_quiz_top ∧
       list_to_set (missing_skills demo_quiz_top)
       = (list_to_set (required_skills c)
          ∖ query_skills (Quiz (demo_quiz (Present "T"))) : gset string) ∧
       NoDup (missing_skills demo_quiz_top).
Proof.
  apply (missing_skills_exact (Quiz (demo_quiz (Present "T"))) demo_world
           demo_quiz_careers).
  - vm_compute. reflexivity.
  - vm_compute. left.
Defined.

(** ** Quiz mode and the domain code *)

Lemma quiz_scan_skills d1 d2 ri cs : ∀ recs w,
  q_current_skills d1 = q_current_skills d2 ->
  quiz_scan d1 ri cs recs w = quiz_scan d2 ri cs recs w.
Proof.
  induction cs as [|c cs IH]; intros recs w Heq; simpl; [done|].
  rewrite Heq. destruct (0 <? _); [|by apply IH].
  unfold bind. destruct (set_of _ w) as [[sk|e] w1]; [by apply IH | done].
Qed.

Lemma unknown_domain_interests dom :
  unknown_domain dom ->
  dict_get domain_interests (get_default dom "") technical_interests
  = technical_interests.
Proof.
  intros Hd. destruct dom as [| |d]; simpl; [done..|].
  specialize (Hd d eq_refl). unfold known_domains in Hd.
  unfold domain_interests. rewrite not_elem_of_list_to_map_1; done.
Qed.

Lemma unknown_domain_name dom :
  unknown_domain dom ->
  dict_get domain_names (get_default dom "") "General" = "General".
Proof.
  intros Hd. destruct dom as [| |d]; simpl; [done..|].
  specialize (Hd d eq_refl). unfold known_domains in Hd.
  unfold domain_names. rewrite not_elem_of_list_to_map_1; done.
Qed.

(** C3, as amended: for a domain code outside T, C, B, S, R (or a missing or
    [null] code) the quiz handler uses the Technical interest set, so it raises
    or returns exactly when a request with domain "T" does, with the same
    [recommended_careers]; the response still echoes the code it was given
    and names the domain "General", where a "T" request is answered with
    "Technical". *)
Theorem unknown_domain_defaults_to_technical (dom : field string)
    (cur : field (list string)) (w : World) :
  unknown_domain dom ->
  same_recommendations
    (quiz_recommend_career {| q_domain := dom; q_current_skills := cur |} w).1
    (quiz_recommend_career {| q_domain := Present "T"; q_current_skills := cur |} w).1 ∧
  (∀ r, (quiz_recommend_career {| q_domain := dom; q_current_skills := cur |} w).1 = Ok r ->
        qr_domain r = get_default dom "" ∧ domain_name r = "General") ∧
  (∀ r, (quiz_recommend_career {| q_domain := Present "T"; q_current_skills := cur |} w).1 = Ok r ->
        qr_domain r = Some "T" ∧ domain_name r = "Technical").
Proof.
  intros Hd. unfold quiz_recommend_career. cbn [q_domain].
  rewrite (unknown_domain_interests _ Hd), (unknown_domain_name _ Hd).
  change (dict_get domain_interests (get_default (Present "T") "") technical_interests)
    with technical_interests.
  change (dict_get domain_names (get_default (Present "T") "") "General")
    with "Technical".
  unfold bind, read_careers.
  rewrite (quiz_scan_skills _ {| q_domain := Present "T"; q_current_skills := cur |})
    by done.
  destruct (quiz_scan _ _ _ _ w) as [[recs|e] w1]; simpl.
  - split; [done|]. split; intros r [= <-]; done.
  - split; [done|]. split; intros r [=].
Qed.

Lemma unknown_domain_defaults_to_technical_witness :
  same_recommendations
    (quiz_recommend_career
       {| q_domain := Present "X"; q_current_skills := Present ["Python"] |}
       demo_world).1
    (quiz_recommend_career
       {| q_domain := Present "T"; q_current_skills := Present ["Python"] |}
       demo_world).1 ∧
  (∀ r, (quiz_recommend_career
           {| q_domain := Present "X"; q_current_skills := Present ["Python"] |}
           demo_world).1 = Ok r ->
        qr_domain r = get_default (Present "X") "" ∧ domain_name r = "General") ∧
  (∀ r, (quiz_recommend_career
           {| q_domain := Present "T"; q_current_skills := Present ["Python"] |}
           demo_world).1 = Ok r ->
        qr_domain r = Some "T" ∧ domain_name r = "Technical").
Proof.
  apply (unknown_domain_defaults_to_technical (Present "X") (Present ["Python"])
           demo_world).
  intros d [= <-]. unfold known_domains.
  rewrite !not_elem_of_cons. repeat split; try discriminate.
  apply not_elem_of_nil.
Defined.

(** C3, as stated, fails: with the domain code "X" the response is not the
    response to domain "T".  The recommendations agree, the fields [domain]
    and [domain_name] do not. *)
Lemma unknown_domain_response_differs :
  ("X" ∉ known_domains) ∧
  ∃ rx rt,
    (quiz_recommend_career (demo_quiz (Present "X")) demo_world).1 = Ok rx ∧
    (quiz_recommend_career (demo_quiz (Present "T")) demo_world).1 = Ok rt ∧
    qr_recommended_careers rx = qr_recommended_careers rt ∧
    (qr_domain rx, domain_name rx) = (Some "X", "General") ∧
    (qr_domain rt, domain_name rt) = (Some "T", "Technical") ∧
    rx ≠ rt.
Proof.
  split.
  - unfold known_domains. rewrite !not_elem_of_cons.
    repeat split; try discriminate. apply not_elem_of_nil.
  - eexists _, _. split; [vm_compute; reflexivity|].
    split; [vm_compute; reflexivity|].
    repeat split. intros [= ?].
Qed.

(** ** Skill gap *)

Lemma named_cons target c cs :
  named target (c :: cs)
  = if decide (Some (career c) = target) then c :: named target cs
    else named target cs.
Proof. unfold named. by rewrite filter_cons. Qed.

Lemma gap_result_overwrite res c sk :
  settled res ->
  <["missing_skills" := VList (gap_of c sk)]> (<["career" := VStr (career c)]> res)
  = gap_result c sk.
Proof.
  intros [->|(c' & sk' & ->)]; [done|]. unfold gap_result.
  rewrite (insert_insert_ne _ "career" "missing_skills") by done.
  by rewrite !insert_insert_eq.
Qed.

Lemma skill_gap_scan_last st cur cs : ∀ res w,
  s_current_skills st = Present cur ->
  settled res ->
  skill_gap_scan st cs res w
  = (Ok (match last (named (get (s_target_career st)) cs) with
         | Some c => gap_result c (list_to_set cur)
         | None => res
         end), w).
Proof.
  induction cs as [|c cs IH]; intros res w Hcur Hres; simpl; [done|].
  rewrite named_cons. destruct (decide _) as [Hc|Hc].
  - rewrite Hcur. unfold bind; simpl.
    change (elements _) with (gap_of c (list_to_set cur)).
    rewrite gap_result_overwrite by done.
    rewrite IH by (try done; right; eauto).
    rewrite last_cons. by destruct (last _).
  - by apply IH.
Qed.

Lemma skill_gap_scan_none st cs : ∀ res w,
  named (get (s_target_career st)) cs = [] ->
  skill_gap_scan st cs res w = (Ok res, w).
Proof.
  induction cs as [|c cs IH]; intros res w; simpl; [done|].
  rewrite named_cons. destruct (decide _); [done | apply IH].
Qed.

Lemma skill_gap_scan_career st cs : ∀ res w out w',
  skill_gap_scan st cs res w = (Ok out, w') ->
  is_Some (res !! "career") ∨ named (get (s_target_career st)) cs ≠ [] ->
  is_Some (out !! "career").
Proof.
  induction cs as [|c cs IH]; intros res w out w'; simpl.
  - intros [= <- <-] [?|?]; done.
  - rewrite named_cons. destruct (decide _) as [Hc|Hc].
    + intros H _.
      apply bind_Ok_inv in H as (sk & w1 & _ & H).
      apply bind_Ok_inv in H as (qs & w2 & _ & H).
      apply IH in H; [done|]. left.
      rewrite lookup_insert_ne by done. rewrite lookup_insert_eq. eauto.
    + intros H Hor. by apply IH in H.
Qed.

(** C5: skill-gap scans the whole catalog and overwrites its result at every
    record named [target_career]; with several such records the answer holds
    the name and the required-minus-current skills of the LAST one (and is
    empty when there is none). *)
Theorem skill_gap_last_match (st : Student) (w : World) (cur : list string) :
  s_current_skills st = Present cur ->
  (skill_gap st w).1
  = Ok (match last (named (get (s_target_career st)) (careers w)) with
        | Some c => gap_result c (list_to_set cur)
        | None => ∅
        end).
Proof.
  intros Hcur. unfold skill_gap, bind, read_careers.
  rewrite (skill_gap_scan_last st cur) by (try done; by left). done.
Qed.

Lemma skill_gap_last_match_witness :
  (skill_gap demo_student demo_world).1
  = Ok (match last (named (get (s_target_career demo_student)) (careers demo_world)) with
        | Some c => gap_result c (list_to_set ["Python"])
        | None => ∅
        end).
Proof.
  apply (skill_gap_last_match demo_student demo_world ["Python"]). reflexivity.
Defined.

(** The small catalog has two records named "Software Engineer"; the answer
    is computed from the second one, which requires Rust and Python. *)
Example demo_skill_gap :
  (skill_gap demo_student demo_world).1
  = Ok (<["missing_skills" := VList ["Rust"]]>
          (<["career" := VStr "Software Engineer"]> ∅)).
Proof. vm_compute. reflexivity. Qed.

(** ** Learning roadmap *)

Lemma build_roadmap_Ok skills : ∀ roadmap w,
  build_roadmap skills roadmap w
  = (Ok (foldl (λ rm skill, <[skill := roadmap_entry (SKILL_ROADMAPS w) skill]> rm)
           roadmap skills), w).
Proof.
  induction skills as [|skill rest IH]; intros roadmap w; simpl; [done|].
  unfold bind, read_SKILL_ROADMAPS, roadmap_entry.
  destruct (SKILL_ROADMAPS w !! skill); simpl; apply IH.
Qed.

Lemma roadmap_fold_lookup table skills : ∀ (roadmap : gmap string SkillRoadmapEntry) skill,
  foldl (λ rm s, <[s := roadmap_entry table s]> rm) roadmap skills !! skill
  = if decide (skill ∈ skills) then Some (roadmap_entry table skill)
    else roadmap !! skill.
Proof.
  induction skills as [|s rest IH]; intros roadmap skill; cbn [foldl].
  - rewrite decide_False; [done | apply not_elem_of_nil].
  - rewrite IH. destruct (decide (skill ∈ rest)) as [Hin|Hin].
    + rewrite decide_True; [done | by right].
    + destruct (decide (s = skill)) as [->|Hne].
      * rewrite lookup_insert_eq, decide_True; [done | by left].
      * rewrite lookup_insert_ne by done.
        rewrite decide_False; [done|]. rewrite elem_of_cons. intros [?|?]; done.
Qed.

Lemma roadmap_fold_dom table (skills : list string) :
  dom (foldl (λ rm s, <[s := roadmap_entry table s]> rm)
         (∅ : gmap string SkillRoadmapEntry) skills)
  = (list_to_set skills : gset string).
Proof.
  apply set_eq. intros skill.
  rewrite elem_of_dom, roadmap_fold_lookup, elem_of_list_to_set.
  destruct (decide (skill ∈ skills)); [naive_solver|].
  rewrite lookup_empty. split; [by intros [? ?] | done].
Qed.

Lemma roadmap_scan_none target cur cs w :
  named target cs = [] -> roadmap_scan target cur cs w = (Ok career_not_found, w).
Proof.
  induction cs as [|c cs IH]; simpl; [done|].
  rewrite named_cons. destruct (decide _); [done | apply IH].
Qed.

Lemma roadmap_scan_first target cur cs w c :
  head (named target cs) = Some c ->
  roadmap_scan target (Some cur) cs w
  = (Ok (roadmap_response target (gap_of c (list_to_set cur))
           (foldl (λ rm s, <[s := roadmap_entry (SKILL_ROADMAPS w) s]> rm) ∅
              (gap_of c (list_to_set cur)))), w).
Proof.
  induction cs as [|c' cs IH]; simpl; [done|].
  rewrite named_cons. destruct (decide _) as [Hc|Hc]; [|apply IH].
  intros [= ->]. unfold bind; simpl. by rewrite build_roadmap_Ok.
Qed.

Lemma roadmap_scan_found target cur cs w :
  named target cs ≠ [] -> (roadmap_scan target cur cs w).1 ≠ Ok career_not_found.
Proof.
  intros Hn. destruct (named target cs) as [|c rest] eqn:E; [done|].
  destruct cur as [cur|].
  - erewrite roadmap_scan_first by (by rewrite E). cbn [fst]. intros H.
    apply (f_equal (λ r, match r with
                         | Ok m => m !! "learning_roadmap"
                         | Raise _ => None
                         end)) in H.
    unfold roadmap_response in H. by rewrite lookup_insert_eq in H.
  - clear Hn. revert c rest E. induction cs as [|c' cs IH]; intros c rest; simpl; [done|].
    rewrite named_cons. destruct (decide _); [done | apply IH].
Qed.

(** C4: a [target_career] that names no catalog record is answered with the
    empty object by skill-gap and with the payload [{"error": "Career not
    found"}] by learning-roadmap, whatever else the request holds; and each
    handler gives that answer in no other case. *)
Theorem career_not_found_outcomes (st : Student) (w : World) :
  (named (get (s_target_career st)) (careers w) = []
   ↔ (skill_gap st w).1 = Ok ∅) ∧
  (named (get (s_target_career st)) (careers w) = []
   ↔ (learning_roadmap st w).1 = Ok career_not_found).
Proof.
  split; split.
  - intros Hn. unfold skill_gap, bind, read_careers.
    by rewrite skill_gap_scan_none.
  - unfold skill_gap, bind, read_careers. intros H.
    destruct (skill_gap_scan st (careers w) ∅ w) as [[out|e] w'] eqn:E; [|done].
    simpl in H. injection H as ->.
    destruct (named _ _) eqn:En; [done|].
    eapply skill_gap_scan_career in E as [v Hv]; [|right; by rewrite En].
    by rewrite lookup_empty in Hv.
  - intros Hn. unfold learning_roadmap, bind, read_careers.
    by rewrite roadmap_scan_none.
  - unfold learning_roadmap, bind, read_careers. intros H.
    destruct (named _ _) eqn:En; [done|].
    eapply roadmap_scan_found in H; [done|]. by rewrite En.
Qed.

Lemma prefix_refl s : String.prefix s s = true.
Proof. induction s as [|a s IH]; simpl; [done|]. by destruct (ascii_dec a a). Qed.

Lemma str_in_refl s : str_in s s = true.
Proof. destruct s; cbn [str_in]; by rewrite prefix_refl. Qed.

Lemma str_in_app_r p s : str_in s (p +:+ s) = true.
Proof.
  induction p as [|a p IH]; [apply str_in_refl|].
  change (String a p +:+ s) with (String a (p +:+ s)).
  cbn [str_in]. rewrite IH. apply orb_true_r.
Qed.

(** C6: when the catalog has a record named [target_career] (and
    [current_skills] is a list or missing), learning-roadmap answers with the
    missing skills of the first such record and a roadmap whose keys are
    exactly those skills, each once.  A missing skill that [SKILL_ROADMAPS]
    does not know gets the generated entry: one beginner item "Learn basics
    of X", one intermediate item "Practice X", one advanced item "Build
    projects using X", each containing the skill name X. *)
Theorem learning_roadmap_keys (st : Student) (w : World) (c : CareerRecord) :
  head (named (get (s_target_career st)) (careers w)) = Some c ->
  s_current_skills st ≠ Null ->
  ∃ missing roadmap,
    (learning_roadmap st w).1
    = Ok (roadmap_response (get (s_target_career st)) missing roadmap) ∧
    missing = gap_of c (field_set (s_current_skills st)) ∧
    NoDup missing ∧
    dom roadmap = list_to_set missing ∧
    ∀ skill, skill ∈ missing -> SKILL_ROADMAPS w !! skill = None ->
      ∃ e, roadmap !! skill = Some e ∧
           beginner e = ["Learn basics of " +:+ skill] ∧
           intermediate e = ["Practice " +:+ skill] ∧
           advanced e = ["Build projects using " +:+ skill] ∧
           ∀ item, item ∈ beginner e ++ intermediate e ++ advanced e ->
                   str_in skill item = true.
Proof.
  intros Hc Hcur. unfold learning_roadmap, bind, read_careers.
  destruct (get_default (s_current_skills st) []) as [cur|] eqn:Ecur;
    [|by destruct (s_current_skills st)].
  rewrite (roadmap_scan_first _ _ _ _ _ Hc).
  rewrite <- (field_set_get_default _ _ Ecur).
  eexists _, _. split; [done|]. split; [done|].
  split; [apply NoDup_elements|]. split; [apply roadmap_fold_dom|].
  intros skill Hin Hnone. exists (generic_roadmap skill).
  rewrite roadmap_fold_lookup, decide_True by done.
  unfold roadmap_entry. rewrite Hnone. repeat split.
  intros item Hitem. simpl in Hitem.
  repeat (apply elem_of_cons in Hitem as [->|Hitem]; [apply str_in_app_r|]).
  by apply elem_of_nil in Hitem.
Qed.

Lemma learning_roadmap_keys_witness :
  ∃ missing roadmap,
    (learning_roadmap demo_student demo_world).1
    = Ok (roadmap_response (get (s_target_career demo_student)) missing roadmap) ∧
    missing = gap_of (mk_career "Software Engineer" ["Programming"; "Data"]
                        ["Python"; "Git"])
                (field_set (s_current_skills demo_student)) ∧
    NoDup missing ∧
    dom roadmap = list_to_set missing ∧
    ∀ skill, skill ∈ missing -> SKILL_ROADMAPS demo_world !! skill = None ->
      ∃ e, roadmap !! skill = Some e ∧
           beginner e = ["Learn basics of " +:+ skill] ∧
           intermediate e = ["Practice " +:+ skill] ∧
           advanced e = ["Build projects using " +:+ skill] ∧
           ∀ item, item ∈ beginner e ++ intermediate e ++ advanced e ->
                   str_in skill item = true.
Proof.
  apply (learning_roadmap_keys demo_student demo_world).
  - vm_compute. reflexivity.
  - discriminate.
Defined.

(** On the small catalog the first "Software Engineer" record is used: the
    student lacks Git, which the table does not cover. *)
Example demo_learning_roadmap :
  (learning_roadmap demo_student demo_world).1
  = Ok (roadmap_response (Some "Software Engineer") ["Git"]
          {[ "Git" := {| beginner := ["Learn basics of Git"];
                         intermediate := ["Practice Git"];
                         advanced := ["Build projects using Git"] |} ]}).
Proof. vm_compute. reflexivity. Qed.

(** ** The rule-based responder *)

Lemma scan_words_mentions cat words question category :
  scan_words cat words question category
  = if mentions question words then Some cat else category.
Proof.
  induction words as [|word rest IH]; simpl; [done|].
  destruct (str_in word question); simpl; [done | apply IH].
Qed.

Lemma detect_category_find table question :
  Forall (λ entry, entry.1 ≠ "") table ->
  detect_category table question None
  = fst <$> find (λ entry, mentions question entry.2) table.
Proof.
  induction 1 as [|[cat words] rest Hcat _ IH]; simpl; [done|].
  rewrite scan_words_mentions.
  destruct (mentions question words); simpl; [|apply IH].
  destruct cat; [done | reflexivity].
Qed.

Lemma keywords_named : Forall (λ entry : string * list string, entry.1 ≠ "") keywords.
Proof. repeat constructor; discriminate. Qed.

Lemma question_category_spec question :
  question_category question = Some (first_category question).
Proof.
  unfold question_category, first_category.
  rewrite (detect_category_find _ _ keywords_named).
  destruct (find _ keywords) as [[cat words]|] eqn:E; simpl; [|done].
  apply find_some in E as [Hin _].
  pose proof keywords_named as Hk. rewrite Forall_forall in Hk.
  apply list_elem_of_In, Hk in Hin. simpl in Hin. by destruct cat.
Qed.




(** The scenario of the specification: the salary question for a "Software
    Engineer" is answered with the salary text that carries the guidance of
    the "software engineer" entry. *)
Example demo_salary_question :
  first_category (lower "What salary can I expect?") = "salary" ∧
  ∃ g, head career_guidance = Some ("software engineer", g) ∧
       (get_rule_based_response salary_question demo_world).1
       = Ok (salary_overview (Some "Software Engineer") g).
Proof. split; [reflexivity|]. eexists. split; reflexivity. Qed.

(** A question with keywords of several categories falls in the earliest. *)
Example demo_first_category_wins :
  first_category (lower "Which SKILL gives the best salary for remote jobs?")
  = "salary".
Proof. reflexivity. Qed.

Lemma generate_response_nonempty category career missing_skills guidance :
  generate_response category career missing_skills guidance ≠ "".
Proof.
  unfold generate_response.
  repeat case_decide;
    repeat match goal with
           | |- context [match ?x with _ => _ end] => destruct x
           end;
    discriminate.
Qed.

(** With a question that is a string, or with no question at all, the
    responder returns a text, and the text is not empty: whatever the other
    keys of the request hold. *)
Lemma get_rule_based_response_total (data : ChatData) (w : World) :
  c_question data ≠ Null ->
  ∃ text, get_rule_based_response data w = (Ok text, w) ∧ text ≠ "".
Proof.
  intros Hq. unfold get_rule_based_response, bind.
  destruct (c_question data) as [| |q]; [|done|]; simpl;
    eexists; (split; [reflexivity | apply generate_response_nonempty]).
Qed.

(** C7 fails on the code: a request whose [question] is JSON [null] makes
    [data.get("question", "")] return [None], and [None.lower()] raises
    [AttributeError].  [career_chat] calls the responder outside its [try]
    block, so when the language-model service is down the exception leaves
    the handler. *)
Theorem null_question_raises :
  get_rule_based_response null_question demo_world
  = (Raise AttributeError, demo_world) ∧
  career_chat None null_question demo_world = (Raise AttributeError, demo_world).
Proof. split; reflexivity. Qed.

(** The sibling key [career] is guarded ([career.lower() if career else ""]):
    the same request with the [null] moved to [career] is answered. *)
Example null_career_answered :
  ∃ text,
    get_rule_based_response
      {| c_education := Absent; c_interests := Absent; c_current_skills := Absent;
         c_career := Null; c_missing_skills := Absent;
         c_question := Present "What salary can I expect?" |} demo_world
    = (Ok text, demo_world) ∧ text ≠ "".
Proof. by apply get_rule_based_response_total. Qed.




(** The request with no career and the question "Hello there" is answered
    with the overview of the software engineer. *)
Example demo_no_career :
  first_category (lower "Hello there") = "general" ∧
  ∃ g, head career_guidance = Some ("software engineer", g) ∧
       (get_rule_based_response (demo_chat Absent (Present "Hello there")) demo_world).1
       = Ok (career_overview (Some "") g).
Proof. split; [reflexivity|]. eexists. split; reflexivity. Qed.

(** * Further properties of the handlers *)

(** ** The recommendation pipeline *)

Lemma recommend_scan_exact st cs : ∀ recs w out w',
  recommend_scan st cs recs w = (Ok out, w') ->
  out = recs ++ map (recommendation_of (Direct st))
                  (matching (field_set (s_interests st)) cs) ∧
  (cs = [] ∨ is_list (s_interests st)) ∧
  (matching (field_set (s_interests st)) cs = [] ∨ is_list (s_current_skills st)).
Proof.
  induction cs as [|c cs IH]; intros recs w out w'; simpl.
  - intros [= <- <-]. rewrite app_nil_r. auto.
  - intros H.
    apply bind_Ok_inv in H as (si & w1 & H1 & H).
    apply subscript_Ok_inv in H1 as (-> & _ & Hsi).
    apply bind_Ok_inv in H as (qi & w2 & H2 & H).
    apply set_of_Ok_inv in H2 as (-> & l & -> & ->).
    assert (s_interests st = Present l) as Hl
      by (destruct (s_interests st); simpl in Hsi; congruence).
    rewrite matching_cons.
    rewrite Hl in *. cbn [field_set] in *.
    change (match_score (list_to_set l) c)
      with (size (list_to_set l ∩ list_to_set (interests c) : gset string)).
    set (n := size (list_to_set l ∩ list_to_set (interests c) : gset string)) in *.
    destruct (Nat.ltb_spec 0 n) as [Hpos|Hzero].
    + apply bind_Ok_inv in H as (sk & w3 & H3 & H).
      apply subscript_Ok_inv in H3 as (-> & _ & Hsk).
      apply bind_Ok_inv in H as (qs & w4 & H4 & H).
      apply set_of_Ok_inv in H4 as (-> & l' & -> & ->).
      assert (s_current_skills st = Present l') as Hl'
        by (destruct (s_current_skills st); simpl in Hsk; congruence).
      apply IH in H as (-> & _ & _).
      destruct (decide (1 ≤ n)); [|lia].
      split; [|split; [right; by exists l | right; by exists l']].
      rewrite <- app_assoc. f_equal. cbn [map]. f_equal.
      unfold recommendation_of, gap_of, match_score; simpl.
      rewrite Hl, Hl'. done.
    + apply IH in H as (-> & _ & Hm).
      destruct (decide (1 ≤ n)); [lia|].
      split; [done|]. split; [right; by exists l | done].
Qed.


Lemma quiz_scan_exact data cs : ∀ recs w out w',
  quiz_scan data
    (dict_get domain_interests (get_default (q_domain data) "") technical_interests)
    cs recs w = (Ok out, w') ->
  out = recs ++ map (recommendation_of (Quiz data))
                  (matching (query_interests (Quiz data)) cs) ∧
  (matching (query_interests (Quiz data)) cs = [] ∨ q_current_skills data ≠ Null).
Proof.
  cbn [query_interests].
  set (ri := dict_get domain_interests (get_default (q_domain data) "")
               technical_interests).
  induction cs as [|c cs IH]; intros recs w out w'; simpl.
  - intros [= <- <-]. rewrite app_nil_r. auto.
  - intros H. rewrite matching_cons.
    rewrite (comm_L (∩) (list_to_set (interests c)) (list_to_set ri)) in H.
    change (match_score (list_to_set ri) c)
      with (size (list_to_set ri ∩ list_to_set (interests c) : gset string)).
    set (n := size (list_to_set ri ∩ list_to_set (interests c) : gset string)) in *.
    destruct (Nat.ltb_spec 0 n) as [Hpos|Hzero].
    + apply bind_Ok_inv in H as (qs & w4 & H4 & H).
      apply set_of_Ok_inv in H4 as (-> & l' & Hsk & ->).
      apply IH in H as (-> & _).
      destruct (decide (1 ≤ n)); [|lia].
      split; [|right; by destruct (q_current_skills data)].
      rewrite <- app_assoc. f_equal. cbn [map]. f_equal.
      unfold recommendation_of, gap_of, match_score; cbn [query_interests query_skills].
      by rewrite (field_set_get_default _ _ Hsk).
    + apply IH in H as (-> & Hm).
      by destruct (decide (1 ≤ n)); [lia|].
Qed.


Lemma recommended_careers_pipeline_aux (q : Query) (w : World)
    (out : list Recommendation) :
  returned_careers q w = Some out ->
  out = take (top_k q)
          (sort_desc interest_match_score
             (map (recommendation_of q)
                (matching (query_interests q) (careers w)))).
Proof.
  destruct q as [st|data]; simpl.
  - destruct (recommend_career st w) as [[resp|e] w'] eqn:E; simpl; [|done].
    intros [= <-]. unfold recommend_career in E.
    apply bind_Ok_inv in E as (cs & w1 & H1 & E).
    apply read_careers_Ok_inv in H1 as [-> ->].
    apply bind_Ok_inv in E as (recs & w2 & H2 & E).
    apply recommend_scan_exact in H2 as (-> & _).
    apply bind_Ok_inv in E as (name & w3 & _ & E).
    by injection E as <- _.
  - destruct (quiz_recommend_career data w) as [[resp|e] w'] eqn:E; simpl; [|done].
    intros [= <-]. unfold quiz_recommend_career in E.
    apply bind_Ok_inv in E as (cs & w1 & H1 & E).
    apply read_careers_Ok_inv in H1 as [-> ->].
    apply bind_Ok_inv in E as (recs & w2 & H2 & E).
    apply quiz_scan_exact in H2 as (-> & _).
    by injection E as <- _.
Qed.

(** X1: when a recommendation handler answers, [recommended_careers] is
    exactly: the catalog records that share an interest with the query, in
    catalog order, each turned into its recommendation (all catalog fields
    passed through, missing lists replaced by [[]], [startup_guidance] only in
    direct mode), stably sorted by decreasing score, cut to 3 or 5. *)
Theorem recommended_careers_pipeline (q : Query) (w : World)
    (out : list Recommendation) :
  returned_careers q w = Some out ->
  out = take (top_k q)
          (sort_desc interest_match_score
             (map (recommendation_of q)
                (matching (query_interests q) (careers w)))).
Proof. apply recommended_careers_pipeline_aux. Qed.

Lemma recommended_careers_pipeline_witness :
  demo_quiz_careers
  = take (top_k (Quiz (demo_quiz (Present "T"))))
      (sort_desc interest_match_score
         (map (recommendation_of (Quiz (demo_quiz (Present "T"))))
            (matching (query_interests (Quiz (demo_quiz (Present "T"))))
               (careers demo_world)))).
Proof.
  apply (recommended_careers_pipeline (Quiz (demo_quiz (Present "T"))) demo_world).
  vm_compute. reflexivity.
Defined.



(** ** Requests are read as sets *)

Lemma bind_same_set {B} (f g : field (list string)) (k k' : gset string -> M B) w :
  same_set f g ->
  (∀ X w', k X w' = k' X w') ->
  (x <- subscript f ;; X <- set_of x ;; k X) w
  = (x <- subscript g ;; X <- set_of x ;; k' X) w.
Proof.
  intros H Hk. destruct f, g; simpl in H; try done; unfold bind; simpl.
  rewrite H. apply Hk.
Qed.

Lemma recommend_scan_same_set st st' cs : ∀ recs w,
  same_set (s_interests st) (s_interests st') ->
  same_set (s_current_skills st) (s_current_skills st') ->
  recommend_scan st cs recs w = recommend_scan st' cs recs w.
Proof.
  induction cs as [|c cs IH]; intros recs w Hi Hs; cbn [recommend_scan]; [done|].
  apply bind_same_set; [done|]. intros qi w1. cbv zeta.
  destruct (0 <? _); [|by apply IH].
  apply bind_same_set; [done|]. intros qs w2. by apply IH.
Qed.

(** X4: recommend-career reads [interests] and [current_skills] through
    [set(...)]: two requests with the same name whose lists hold the same
    elements, in any order and with any repetitions, get the same outcome.  In
    particular an interest listed twice counts once in the score. *)
Theorem recommend_career_reads_sets (st st' : Student) (w : World) :
  s_name st = s_name st' ->
  same_set (s_interests st) (s_interests st') ->
  same_set (s_current_skills st) (s_current_skills st') ->
  recommend_career st w = recommend_career st' w.
Proof.
  intros Hn Hi Hs. unfold recommend_career, bind, read_careers.
  rewrite (recommend_scan_same_set st st') by done.
  by rewrite Hn.
Qed.

Lemma recommend_career_reads_sets_witness :
  recommend_career demo_student_shuffled demo_world
  = recommend_career demo_student demo_world.
Proof.
  apply (recommend_career_reads_sets demo_student_shuffled demo_student demo_world).
  - reflexivity.
  - vm_compute. reflexivity.
  - vm_compute. reflexivity.
Defined.

(** ** What the ranking keeps *)

Lemma size_list_to_set_le (l : list string) :
  size (list_to_set l : gset string) ≤ length l.
Proof.
  induction l as [|x l IH].
  { by rewrite list_to_set_nil, size_empty. }
  rewrite list_to_set_cons, size_union_alt, size_singleton. cbn [length].
  assert (size (list_to_set l ∖ {[x]} : gset string)
          ≤ size (list_to_set l : gset string)) as Hle.
  { apply subseteq_size. intros y Hy. by apply elem_of_difference in Hy as [? _]. }
  lia.
Qed.

Lemma returned_from_matching q w out r :
  returned_careers q w = Some out ->
  r ∈ out ->
  ∃ c, c ∈ matching (query_interests q) (careers w) ∧ r = recommendation_of q c.
Proof.
  intros H Hr. apply recommended_careers_pipeline_aux in H. subst out.
  apply (subseteq_take (top_k q)) in Hr.
  rewrite (sort_desc_perm interest_match_score) in Hr.
  apply list_elem_of_In, in_map_iff in Hr as (c & <- & Hc).
  exists c. by rewrite list_elem_of_In.
Qed.

(** X5: every recommended career comes from a catalog record that shares at
    least one interest tag with the query, and its score is at most the number
    of tags of the record and at most the number of distinct interests of the
    query. *)
Theorem recommended_career_shares_interest (q : Query) (w : World)
    (out : list Recommendation) (r : Recommendation) :
  returned_careers q w = Some out ->
  r ∈ out ->
  ∃ c, c ∈ careers w ∧ r = recommendation_of q c ∧
       (∃ tag, tag ∈ interests c ∧ tag ∈ query_interests q) ∧
       interest_match_score r ≤ length (interests c) ∧
       interest_match_score r ≤ size (query_interests q).
Proof.
  intros H Hr. destruct (returned_from_matching _ _ _ _ H Hr) as (c & Hc & ->).
  apply list_elem_of_filter in Hc as [Hpos Hc].
  exists c. split; [done|]. split; [done|]. cbn [recommendation_of interest_match_score].
  unfold match_score in *. split; [|split].
  - destruct (size_pos_elem_of (query_interests q ∩ list_to_set (interests c)))
      as [tag Htag]; [lia|].
    apply elem_of_intersection in Htag as [? Htag].
    apply elem_of_list_to_set in Htag. eauto.
  - etrans; [|apply size_list_to_set_le].
    apply subseteq_size, intersection_subseteq_r.
  - apply subseteq_size, intersection_subseteq_l.
Qed.

Lemma recommended_career_shares_interest_witness :
  ∃ c, c ∈ careers demo_world ∧
       demo_quiz_top = recommendation_of (Quiz (demo_quiz (Present "T"))) c ∧
       (∃ tag, tag ∈ interests c
               ∧ tag ∈ query_interests (Quiz (demo_quiz (Present "T")))) ∧
       interest_match_score demo_quiz_top ≤ length (interests c) ∧
       interest_match_score demo_quiz_top
       ≤ size (query_interests (Quiz (demo_quiz (Present "T")))).
Proof.
  apply (recommended_career_shares_interest (Quiz (demo_quiz (Present "T")))
           demo_world demo_quiz_careers).
  - vm_compute. reflexivity.
  - vm_compute. left.
Defined.

(** X6: the cut keeps the best.  The answer holds [min K n] recommendations
    when [n] records match ([K] = 3 or 5), and none of the recommendations
    that are left out has a higher score than one that is returned. *)
Theorem top_k_keeps_best (q : Query) (w : World) (out : list Recommendation) :
  returned_careers q w = Some out ->
  length out
  = min (top_k q) (length (matching (query_interests q) (careers w))) ∧
  ∃ rest,
    out ++ rest
    ≡ₚ map (recommendation_of q) (matching (query_interests q) (careers w)) ∧
    ∀ r r', r ∈ out -> r' ∈ rest ->
            interest_match_score r' ≤ interest_match_score r.
Proof.
  intros H. apply recommended_careers_pipeline_aux in H. subst out.
  set (cands := map _ _).
  split.
  - rewrite length_take, (sort_desc_perm interest_match_score cands).
    unfold cands. by rewrite length_map.
  - exists (drop (top_k q) (sort_desc interest_match_score cands)).
    split; [by rewrite take_drop, sort_desc_perm|].
    intros r r' Hr Hr'.
    pose proof (sort_desc_sorted interest_match_score cands) as Hs.
    rewrite <- (take_drop (top_k q) (sort_desc interest_match_score cands)) in Hs.
    exact (StronglySorted_app_1_elem_of _ _ _ _ _ Hs Hr Hr').
Qed.

Lemma top_k_keeps_best_witness :
  length demo_direct_careers
  = min (top_k (Direct demo_student))
      (length (matching (query_interests (Direct demo_student)) (careers demo_world))) ∧
  ∃ rest,
    demo_direct_careers ++ rest
    ≡ₚ map (recommendation_of (Direct demo_student))
         (matching (query_interests (Direct demo_student)) (careers demo_world)) ∧
    ∀ r r', r ∈ demo_direct_careers -> r' ∈ rest ->
            interest_match_score r' ≤ interest_match_score r.
Proof.
  apply (top_k_keeps_best (Direct demo_student) demo_world).
  vm_compute. reflexivity.
Defined.

(** ** Skill gap and learning roadmap side by side *)

Lemma skill_gap_scan_no_skills st cs : ∀ res w,
  s_current_skills st = Absent ->
  named (get (s_target_career st)) cs ≠ [] ->
  skill_gap_scan st cs res w = (Raise KeyError, w).
Proof.
  induction cs as [|c cs IH]; intros res w Hs; simpl; [done|].
  rewrite named_cons. destruct (decide _); [|by apply IH].
  intros _. by rewrite Hs.
Qed.

(** X7: the two handlers read [current_skills] differently.  For a career the
    catalog knows and a request without the key, skill-gap raises [KeyError]
    ([student["current_skills"]]), while learning-roadmap takes the skills to
    be empty ([student.get("current_skills", [])]) and reports every required
    skill of the record as missing. *)
Theorem missing_current_skills_key (st : Student) (w : World) (c : CareerRecord) :
  s_current_skills st = Absent ->
  head (named (get (s_target_career st)) (careers w)) = Some c ->
  (skill_gap st w).1 = Raise KeyError ∧
  ∃ missing roadmap,
    (learning_roadmap st w).1
    = Ok (roadmap_response (get (s_target_career st)) missing roadmap) ∧
    (list_to_set missing : gset string) = list_to_set (required_skills c).
Proof.
  intros Hs Hc. split.
  - unfold skill_gap, bind, read_careers.
    rewrite skill_gap_scan_no_skills; [done..|].
    intros Hn. by rewrite Hn in Hc.
  - unfold learning_roadmap, bind, read_careers. rewrite Hs. cbn [get_default].
    rewrite (roadmap_scan_first _ _ _ _ _ Hc).
    eexists _, _. split; [done|]. unfold gap_of.
    by rewrite list_to_set_elements_L, list_to_set_nil, difference_empty_L.
Qed.

Lemma missing_current_skills_key_witness :
  (skill_gap demo_no_skills demo_world).1 = Raise KeyError ∧
  ∃ missing roadmap,
    (learning_roadmap demo_no_skills demo_world).1
    = Ok (roadmap_response (get (s_target_career demo_no_skills)) missing roadmap) ∧
    (list_to_set missing : gset string)
    = list_to_set (required_skills (mk_career "Designer" ["Design"; "Art"] ["Figma"])).
Proof.
  apply (missing_current_skills_key demo_no_skills demo_world).
  - reflexivity.
  - vm_compute. reflexivity.
Defined.

(** X8: when exactly one catalog record has the target name, the answer of
    learning-roadmap is the answer of skill-gap with the key
    [learning_roadmap] added: the two agree on [career] and
    [missing_skills].  (With several records of that name they need not:
    skill-gap settles on the last one, learning-roadmap on the first.) *)
Theorem learning_roadmap_extends_skill_gap (st : Student) (w : World)
    (c : CareerRecord) (cur : list string) :
  named (get (s_target_career st)) (careers w) = [c] ->
  s_current_skills st = Present cur ->
  ∃ answer,
    (learning_roadmap st w).1 = Ok answer ∧
    is_Some (answer !! "learning_roadmap") ∧
    (skill_gap st w).1 = Ok (delete "learning_roadmap" answer).
Proof.
  intros Hn Hs.
  assert (get (s_target_career st) = Some (career c)) as Ht.
  { assert (c ∈ named (get (s_target_career st)) (careers w)) as Hc
      by (rewrite Hn; left).
    by apply list_elem_of_filter in Hc as [<- _]. }
  eexists. split; [|split].
  - unfold learning_roadmap, bind, read_careers. rewrite Hs. cbn [get_default].
    erewrite roadmap_scan_first by (by rewrite Hn). done.
  - unfold roadmap_response. rewrite lookup_insert_eq. eauto.
  - unfold skill_gap, bind, read_careers.
    rewrite (skill_gap_scan_last st cur) by (try done; by left).
    rewrite Hn, Ht. cbn [last fst opt_value].
    unfold roadmap_response, gap_result.
    rewrite delete_insert_eq, delete_insert_ne by done.
    rewrite <- insert_empty, delete_insert_ne by done.
    by rewrite delete_empty.
Qed.

Lemma learning_roadmap_extends_skill_gap_witness :
  ∃ answer,
    (learning_roadmap demo_data_scientist demo_world).1 = Ok answer ∧
    is_Some (answer !! "learning_roadmap") ∧
    (skill_gap demo_data_scientist demo_world).1 = Ok (delete "learning_roadmap" answer).
Proof.
  apply (learning_roadmap_extends_skill_gap demo_data_scientist demo_world
           (mk_career "Data Scientist" ["Data"; "AI"; "Programming"] ["Python"; "SQL"])
           ["Python"; "SQL"]).
  - vm_compute. reflexivity.
  - reflexivity.
Defined.

(** On the small catalog "Software Engineer" is listed twice, and the two
    handlers disagree on what the student lacks. *)
Example demo_duplicate_names_disagree :
  (skill_gap demo_student demo_world).1
  = Ok (gap_result (mk_career "Software Engineer" ["Software"] ["Rust"; "Python"])
          (list_to_set ["Python"])) ∧
  ∃ roadmap,
    (learning_roadmap demo_student demo_world).1
    = Ok (roadmap_response (Some "Software Engineer") ["Git"] roadmap).
Proof. split; [vm_compute; reflexivity|]. eexists. vm_compute. reflexivity. Qed.

(** X9: the roadmap has an entry for a skill exactly when the first record
    named [target_career] requires it and the student does not have it, and
    the entry of a skill that [SKILL_ROADMAPS] knows is the one of the table.
    A student who has every required skill gets an empty roadmap, not an
    error. *)
Theorem learning_roadmap_entries (st : Student) (w : World) (c : CareerRecord) :
  head (named (get (s_target_career st)) (careers w)) = Some c ->
  s_current_skills st ≠ Null ->
  ∃ missing roadmap,
    (learning_roadmap st w).1
    = Ok (roadmap_response (get (s_target_career st)) missing roadmap) ∧
    (∀ skill, is_Some (roadmap !! skill)
              ↔ skill ∈ required_skills c
                ∧ skill ∉ field_set (s_current_skills st)) ∧
    (∀ skill e, SKILL_ROADMAPS w !! skill = Some e ->
                is_Some (roadmap !! skill) -> roadmap !! skill = Some e) ∧
    (list_to_set (required_skills c) ⊆ field_set (s_current_skills st) ->
     missing = [] ∧ roadmap = ∅).
Proof.
  intros Hc Hcur. unfold learning_roadmap, bind, read_careers.
  destruct (get_default (s_current_skills st) []) as [cur|] eqn:Ecur;
    [|by destruct (s_current_skills st)].
  rewrite (roadmap_scan_first _ _ _ _ _ Hc).
  rewrite <- (field_set_get_default _ _ Ecur).
  set (sk := field_set (s_current_skills st)).
  assert (∀ skill, skill ∈ gap_of c sk ↔ skill ∈ required_skills c ∧ skill ∉ sk)
    as Hgap.
  { intros skill. unfold gap_of.
    by rewrite elem_of_elements, elem_of_difference, elem_of_list_to_set. }
  eexists _, _. split; [done|]. split; [|split].
  - intros skill. rewrite roadmap_fold_lookup, <- Hgap.
    destruct (decide (skill ∈ gap_of c sk)); [by split; eauto|].
    rewrite lookup_empty. split; [by intros [? ?] | done].
  - intros skill e He. rewrite roadmap_fold_lookup.
    destruct (decide (skill ∈ gap_of c sk)).
    + intros _. unfold roadmap_entry. by rewrite He.
    + rewrite lookup_empty. by intros [? ?].
  - intros Hsub.
    assert (gap_of c sk = []) as ->; [|done].
    unfold gap_of.
    assert (list_to_set (required_skills c) ∖ sk = (∅ : gset string)) as ->.
    { apply set_eq. intros x. rewrite elem_of_difference.
      split; [intros [Hx Hn]; by apply Hsub in Hx | by intros ?%not_elem_of_empty]. }
    apply elements_empty.
Qed.

Lemma learning_roadmap_entries_witness :
  ∃ missing roadmap,
    (learning_roadmap demo_sql_gap demo_world).1
    = Ok (roadmap_response (get (s_target_career demo_sql_gap)) missing roadmap) ∧
    (∀ skill, is_Some (roadmap !! skill)
              ↔ skill ∈ required_skills
                          (mk_career "Data Scientist" ["Data"; "AI"; "Programming"]
                             ["Python"; "SQL"])
                ∧ skill ∉ field_set (s_current_skills demo_sql_gap)) ∧
    (∀ skill e, SKILL_ROADMAPS demo_world !! skill = Some e ->
                is_Some (roadmap !! skill) -> roadmap !! skill = Some e) ∧
    (list_to_set (required_skills
                    (mk_career "Data Scientist" ["Data"; "AI"; "Programming"]
                       ["Python"; "SQL"]))
     ⊆ field_set (s_current_skills demo_sql_gap) ->
     missing = [] ∧ roadmap = ∅).
Proof.
  apply (learning_roadmap_entries demo_sql_gap demo_world).
  - vm_compute. reflexivity.
  - discriminate.
Defined.

(** The student of the example lacks SQL, which the table covers: the roadmap
    holds the entry of the table.  With SQL among the skills nothing is
    missing and the roadmap is empty. *)
Example demo_known_skill_roadmap :
  (learning_roadmap demo_sql_gap demo_world).1
  = Ok (roadmap_response (Some "Data Scientist") ["SQL"]
          {[ "SQL" := {| beginner := [ "SELECT, INSERT, UPDATE"; "WHERE clause" ];
                         intermediate := [ "JOINs"; "Subqueries" ];
                         advanced := [ "Query optimization"; "Indexing" ] |} ]}) ∧
  (learning_roadmap demo_data_scientist demo_world).1
  = Ok (roadmap_response (Some "Data Scientist") [] ∅).
Proof. split; vm_compute; reflexivity. Qed.

(** ** The chat handler *)


(** *** Substrings of the response texts *)

Lemma prefix_app s q : String.prefix s (s +:+ q) = true.
Proof.
  induction s as [|a s IH]; [by destruct q|].
  change (String a s +:+ q) with (String a (s +:+ q)). cbn [String.prefix].
  by destruct (ascii_dec a a).
Qed.


Lemma str_in_prefix s t : String.prefix s t = true -> str_in s t = true.
Proof. intros H. destruct t; cbn [str_in]; by rewrite H. Qed.

Lemma str_in_skip p s t : str_in s t = true -> str_in s (p +:+ t) = true.
Proof.
  intros H. induction p as [|a p IH]; [done|].
  change (String a p +:+ t) with (String a (p +:+ t)).
  cbn [str_in]. rewrite IH. apply orb_true_r.
Qed.


Lemma str_in_mid p s q : str_in s (p +:+ s +:+ q) = true.
Proof. apply str_in_skip, str_in_prefix, prefix_app. Qed.


(** X11: when the request names a career (a string that is not empty) and
    the question is a string or missing, the text of the responder contains
    the career name as it was given, whatever the category of the question. *)
Theorem response_names_career (data : ChatData) (w : World) (name : string) :
  c_career data = Present name ->
  name ≠ "" ->
  c_question data ≠ Null ->
  ∃ text, get_rule_based_response data w = (Ok text, w) ∧ str_in name text = true.
Proof.
  intros Hc Hname Hq. unfold get_rule_based_response, bind.
  rewrite Hc. cbn [get_default].
  assert (truthy_str (Some name) = true) as Ht by by destruct name.
  destruct (c_question data) as [| |q]; [|done|]; simpl;
    (eexists; split; [reflexivity|]);
    unfold generate_response; rewrite ?Ht;
    repeat case_decide;
    repeat match goal with
           | |- context [match ?x with _ => _ end] => destruct x
           end;
    apply str_in_mid.
Qed.

Lemma response_names_career_witness :
  ∃ text,
    get_rule_based_response salary_question demo_world = (Ok text, demo_world) ∧
    str_in "Software Engineer" text = true.
Proof.
  apply (response_names_career salary_question demo_world "Software Engineer").
  - reflexivity.
  - discriminate.
  - discriminate.
Defined.



(** X13: the guidance lookup ignores the case of ASCII letters, and no key
    of the table is shadowed by an earlier one: a career that is a key of
    [career_guidance] up to case gets the guidance stored under that key. *)
Theorem guidance_for_key (key name : string) (g : Guidance) :
  (key, g) ∈ career_guidance ->
  lower name = key ->
  guidance_for (Some name) = Some g.
Proof.
  intros Hin Hlow. unfold guidance_for.
  assert (truthy_str (Some name) = true) as ->.
  { destruct name; [|done]. simpl in Hlow. subst key.
    unfold career_guidance in Hin.
    repeat (apply elem_of_cons in Hin as [[=]|Hin]). by apply elem_of_nil in Hin. }
  cbn [str]. rewrite Hlow. clear Hlow name.
  unfold career_guidance in Hin.
  repeat (apply elem_of_cons in Hin as [[= -> ->]|Hin]; [reflexivity|]).
  by apply elem_of_nil in Hin.
Qed.

Lemma guidance_for_key_witness :
  ∃ g, head (drop 1 career_guidance) = Some ("data scientist", g) ∧
       guidance_for (Some "Data SCIENTIST") = Some g.
Proof.
  eexists. split; [reflexivity|].
  apply (guidance_for_key "data scientist" "Data SCIENTIST").
  - right. left.
  - reflexivity.
Defined.

Lemma prefix_cons_inv c s t :
  String.prefix (String c s) t = true ->
  ∃ t', t = String c t' ∧ String.prefix s t' = true.
Proof.
  destruct t as [|c' t']; cbn [String.prefix]; [done|].
  destruct (ascii_dec c c') as [->|]; [eauto | done].
Qed.

Lemma str_in_tail c s t : str_in (String c s) t = true -> str_in s t = true.
Proof.
  induction t as [|c' t IH]; cbn [str_in].
  - rewrite orb_false_r. by intros (? & [=] & _)%prefix_cons_inv.
  - intros [H|H]%orb_true_iff.
    + apply prefix_cons_inv in H as (t' & [= <- <-] & H).
      rewrite (str_in_prefix _ _ H). apply orb_true_r.
    + rewrite (IH H). apply orb_true_r.
Qed.

(** X14: "earn", a keyword of the salary category, is part of the word
    "learn", a keyword of the skills category, and salary is looked at first.
    So every question that contains "learn", in any case, is classified as a
    salary question and answered with a salary text, also when the request
    lists missing skills. *)
Theorem learn_is_a_salary_question (data : ChatData) (w : World) (q : string) :
  get_default (c_question data) "" = Some q ->
  str_in "learn" (lower q) = true ->
  first_category (lower q) = "salary" ∧
  ∃ text,
    get_rule_based_response data w = (Ok text, w) ∧
    (text = salary_information (get_default (c_career data) "")
     ∨ ∃ g, text = salary_overview (get_default (c_career data) "") g).
Proof.
  intros Hq Hlearn.
  assert (first_category (lower q) = "salary") as Hcat.
  { apply str_in_tail in Hlearn.
    unfold first_category, keywords. cbn [find snd mentions existsb].
    rewrite Hlearn, !orb_true_r. done. }
  split; [done|].
  unfold get_rule_based_response, bind. rewrite Hq. simpl.
  rewrite question_category_spec, Hcat. unfold generate_response.
  rewrite decide_True by done.
  destruct (guidance_for _) as [g|]; eexists; (split; [reflexivity|]); eauto.
Qed.

Lemma learn_is_a_salary_question_witness :
  first_category (lower "What should I LEARN next?") = "salary" ∧
  ∃ text,
    get_rule_based_response learn_question demo_world = (Ok text, demo_world) ∧
    (text = salary_information (get_default (c_career learn_question) "")
     ∨ ∃ g, text = salary_overview (get_default (c_career learn_question) "") g).
Proof.
  apply (learn_is_a_salary_question learn_question demo_world
           "What should I LEARN next?").
  - reflexivity.
  - reflexivity.
Defined.

(** ** Direct mode against quiz mode *)

Lemma insert_desc_map {A B} (f : A -> B) (keyA : A -> nat) (keyB : B -> nat) x l :
  (∀ a, keyB (f a) = keyA a) ->
  map f (insert_desc keyA x l) = insert_desc keyB (f x) (map f l).
Proof.
  intros Hk. induction l as [|y l IH]; simpl; [done|].
  rewrite !Hk. destruct (keyA y <=? keyA x); simpl; [done | by rewrite IH].
Qed.

Lemma sort_desc_map {A B} (f : A -> B) (keyA : A -> nat) (keyB : B -> nat) l :
  (∀ a, keyB (f a) = keyA a) ->
  map f (sort_desc keyA l) = sort_desc keyB (map f l).
Proof.
  intros Hk. induction l as [|x l IH]; simpl; [done|].
  by rewrite (insert_desc_map f keyA keyB), IH.
Qed.

Lemma map_take {A B} (f : A -> B) n l : map f (take n l) = take n (map f l).
Proof. revert n. induction l as [|x l IH]; intros [|n]; simpl; by rewrite ?IH. Qed.

(** X15: quiz mode is direct mode with the keyword list of the domain as
    interests, a longer cut and no [startup_guidance] key.  For a student
    whose interests are, as a set, the keywords of the quiz domain and whose
    skills are those of the quiz request, the recommendations of
    recommend-career, without [startup_guidance], are the first three of
    quiz-recommend-career. *)
Theorem direct_is_quiz_prefix (st : Student) (data : QuizData) (w : World)
    (direct quiz : list Recommendation) :
  query_interests (Direct st) = query_interests (Quiz data) ->
  query_skills (Direct st) = query_skills (Quiz data) ->
  returned_careers (Direct st) w = Some direct ->
  returned_careers (Quiz data) w = Some quiz ->
  map without_startup_guidance direct = take 3 quiz.
Proof.
  intros Hi Hs Hd Hq.
  apply recommended_careers_pipeline_aux in Hd, Hq. subst direct quiz.
  cbn [top_k]. rewrite take_take, map_take. cbn [Nat.min].
  rewrite (sort_desc_map without_startup_guidance interest_match_score
             interest_match_score) by done.
  rewrite map_map, Hi. f_equal. f_equal.
  apply map_ext. intros c.
  unfold without_startup_guidance, recommendation_of.
  by rewrite Hi, Hs.
Qed.

Lemma direct_is_quiz_prefix_witness :
  map without_startup_guidance demo_technical_careers = take 3 demo_quiz_careers.
Proof.
  apply (direct_is_quiz_prefix demo_technical_student (demo_quiz (Present "T"))
           demo_world).
  - reflexivity.
  - reflexivity.
  - vm_compute. reflexivity.
  - vm_compute. reflexivity.
Defined.
